(** * discord.ext.ipc.server: the IPC server of better-ipc-disnake

    A shallow embedding of [src/discord/ext/ipc/server.py]: the route
    tables, the per-connection message loop of [Server.handle_accept],
    the discovery responder [Server.handle_multicast] and the
    [setup]/[destroy] pair, followed by the properties the specification
    states about them.

    Conventions.
    - A decoded JSON payload and a handler's return value are Python
      values ([pyval]); dictionaries keep their insertion order, because
      [json.dumps] reports the first offending item it meets.
    - Coroutines are functions into [M], a trace-and-exception monad: the
      events a call emits (dispatches on the bot, endpoint calls, frames
      sent on the websocket) and then either a value or the exception
      that escaped.  [try_except] is Python's [try ... except C as e].
    - Logging calls have no effect on any value and are left out.
    - The interpreter is CPython 3.11 with its defaults: [json.dumps]
      refuses an integer of more than 4300 digits.
    - Values are trees: a handler's answer that contains itself (for which
      [json.dumps] raises "Circular reference detected") is not a [pyval]. *)

From stdpp Require Import base option list gmap strings fin_maps.
From Stdlib Require Import ZArith String Ascii Floats.

Set Warnings "-register-all".

Local Open Scope Z_scope.
Local Open Scope string_scope.
Local Open Scope list_scope.

(** ** Python values *)

(** Dictionary keys.  [json.dumps] accepts str, int, float, bool and None
    keys and raises [TypeError] on any other hashable key (a tuple, bytes,
    ...). *)
Inductive pykey : Type :=
| KStr (s : string)
| KInt (z : Z)
| KBool (b : bool)
| KNone
| KOther (tyname : string)
| KFloat (f : float).

(** The builtin containers without a JSON encoding, when they are empty:
    [set()], [frozenset()], [b''] and [bytearray()]. *)
Inductive empty_container : Type :=
| EmptySet
| EmptyFrozenset
| EmptyBytes
| EmptyBytearray.

(** [PObj tyname] is an instance of a class that defines none of the
    special methods and that [json] has no encoding for, such as a
    discord.py model: it is truthy and hashable, it has no length, no [get]
    and cannot be called.  [PEmpty c] is the empty container [c]: like
    those instances it has no encoding, but it is falsy. *)
Inductive pyval : Type :=
| PNone
| PBool (b : bool)
| PInt (z : Z)
| PStr (s : string)
| PList (items : list pyval)
| PDict (items : list (pykey * pyval))
| PObj (tyname : string)
| PFloat (f : float)
| PTuple (items : list pyval)
| PEmpty (c : empty_container).

Definition pydict : Type := list (pykey * pyval).

(** [bool(v)]: a float is falsy when it equals zero ([0.0] and [-0.0];
    [nan] is truthy). *)
Definition truthy (v : pyval) : bool :=
  match v with
  | PNone => false
  | PBool b => b
  | PInt z => negb (z =? 0)%Z
  | PStr s => negb (String.eqb s "")
  | PList l => match l with [] => false | _ => true end
  | PDict d => match d with [] => false | _ => true end
  | PObj _ => true
  | PFloat f => negb (PrimFloat.eqb f 0%float)
  | PTuple l => match l with [] => false | _ => true end
  | PEmpty _ => false
  end.

Definition empty_container_name (c : empty_container) : string :=
  match c with
  | EmptySet => "set"
  | EmptyFrozenset => "frozenset"
  | EmptyBytes => "bytes"
  | EmptyBytearray => "bytearray"
  end.

(** [type(v).__name__] *)
Definition type_name (v : pyval) : string :=
  match v with
  | PNone => "NoneType"
  | PBool _ => "bool"
  | PInt _ => "int"
  | PStr _ => "str"
  | PList _ => "list"
  | PDict _ => "dict"
  | PObj ty => ty
  | PFloat _ => "float"
  | PTuple _ => "tuple"
  | PEmpty c => empty_container_name c
  end.

Definition key_is (k : string) (k' : pykey) : bool :=
  match k' with KStr s => String.eqb s k | _ => false end.

(** [k in d] and [d[k]] for a string key [k]. *)
Fixpoint dict_lookup (k : string) (d : pydict) : option pyval :=
  match d with
  | [] => None
  | (k', v) :: d' => if key_is k k' then Some v else dict_lookup k d'
  end.

(** [d.get(k)]: the value, or [None] when the key is absent. *)
Definition dict_get (k : string) (d : pydict) : pyval :=
  default PNone (dict_lookup k d).

(** [d[k] = v]: an existing key keeps its position, a new one goes last. *)
Fixpoint dict_set (k : string) (v : pyval) (d : pydict) : pydict :=
  match d with
  | [] => [(KStr k, v)]
  | (k', v') :: d' =>
      if key_is k k' then (k', v) :: d' else (k', v') :: dict_set k v d'
  end.

(** ** Exceptions *)

Inductive exc_class : Type :=
| AttributeError
| KeyError
| TypeError
| ValueError
| JSONDecodeError              (* json.decoder, a ValueError *)
| JSONEncodeError              (* discord.ext.ipc.errors *)
| PlainException               (* Exception(...) itself *)
| UserException (name : string)  (* any other subclass of Exception *)
| BaseOnly (name : string).      (* BaseException outside Exception:
                                    SystemExit, CancelledError, ... *)

Record exc : Type := Exc { exc_cls : exc_class; exc_str : string }.

(** [isinstance(e, Exception)] *)
Definition isinstance_Exception (e : exc) : bool :=
  match exc_cls e with BaseOnly _ => false | _ => true end.

Definition isinstance_TypeError (e : exc) : bool :=
  match exc_cls e with TypeError => true | _ => false end.

Definition isinstance_AttributeError (e : exc) : bool :=
  match exc_cls e with AttributeError => true | _ => false end.

Inductive result (A : Type) : Type :=
| Ok (a : A)
| Raised (e : exc).
Arguments Ok {A} a.
Arguments Raised {A} e.

(** ** String helpers *)

(** [s.startswith(p)] *)
Definition startswith (p s : string) : bool := String.prefix p s.

(** [s.endswith(suf)] *)
Fixpoint endswith (suf s : string) : bool :=
  String.eqb s suf ||
  match s with
  | EmptyString => false
  | String _ s' => endswith suf s'
  end.

(** [s.split(".")[0]] *)
Fixpoint split_dot_head (s : string) : string :=
  match s with
  | EmptyString => EmptyString
  | String c s' =>
      if Ascii.eqb c "."%char then EmptyString else String c (split_dot_head s')
  end.

(** ** The objects the server talks to *)

(** A cog registered on the bot; instances are truthy. *)
Inductive Cog : Type := CogInstance (name : string).

(** The request view handed to an endpoint: the instance dictionary of an
    [IpcServerResponse]. *)
Definition IpcServerResponse_obj : Type := gmap string pyval.

(** An endpoint coroutine: [__name__], [__qualname__] (absent on callables
    that are not functions) and what awaiting a call of it gives for the
    positional arguments [(cog, view)] or [(view,)]. *)
Record handler : Type := Handler {
  h_name : string;
  h_qualname : option string;
  h_call : option Cog -> IpcServerResponse_obj -> result pyval
}.

(** The two [aiohttp.web.Application]s a server creates in [start]. *)
Inductive Application : Type := PrimaryApp | MulticastApp.

Inductive AppRunner : Type := AppRunner_of (application : Application).

Inductive TCPSite : Type :=
  TCPSite_of (runner : AppRunner) (host : string) (port : Z).

Inductive event : Type :=
| Dispatch_ipc_error (endpoint : pyval) (error : exc)
    (* bot.dispatch("ipc_error", endpoint, error) *)
| Dispatch_ipc_ready
| Called (endpoint : pyval) (cog : option Cog) (view : IpcServerResponse_obj)
    (* the coroutine registered under [endpoint] was awaited *)
| Sent (payload : pyval)
    (* websocket.send_json(payload) put a frame on the wire *)
| RunnerSetup (r : AppRunner)
| SiteStart (s : TCPSite)
| RunnerCleanup (r : AppRunner)
| SiteStop (s : TCPSite).

(** ** The trace-and-exception monad *)

Definition M (A : Type) : Type := (list event * result A)%type.

Definition ret {A} (a : A) : M A := ([], Ok a).

Definition bind {A B} (m : M A) (f : A -> M B) : M B :=
  match m with
  | (t, Ok a) => let '(t', r) := f a in (t ++ t', r)
  | (t, Raised e) => (t, Raised e)
  end.

Definition raise {A} (e : exc) : M A := ([], Raised e).

Definition emit (ev : event) : M unit := ([ev], Ok tt).

(** A pure step that may raise. *)
Definition lift {A} (r : result A) : M A := ([], r).

(** [try: body  except C as e: on_exc e], where [catches] is
    [isinstance(e, C)]. *)
Definition try_except {A} (body : M A) (catches : exc -> bool)
    (on_exc : exc -> M A) : M A :=
  match body with
  | (t, Ok a) => (t, Ok a)
  | (t, Raised e) =>
      if catches e then let '(t', r) := on_exc e in (t ++ t', r)
      else (t, Raised e)
  end.

(** stdpp's [x ← m; k] and [m ;; k] notations denote [bind]. *)
#[export] Instance M_ret : MRet M := @ret.
#[export] Instance M_bind : MBind M := fun A B f m => bind m f.

Definition trace {A} (m : M A) : list event := fst m.
Definition outcome {A} (m : M A) : result A := snd m.

(** ** [json.dumps] as [websocket.send_json] uses it *)

(** The encoder converts str, int, float, bool and None keys and raises on
    any other key type. *)
Definition bad_key_msg (ty : string) : string :=
  "keys must be str, int, float, bool or None, not " +:+ ty.

Definition not_serializable_msg (ty : string) : string :=
  "Object of type " +:+ ty +:+ " is not JSON serializable".

(** [sys.get_int_max_str_digits()] is 4300: writing an integer in decimal
    raises [ValueError] from [10 ** 4300] on, in either sign. *)
Definition int_max_str_digits : Z := 4300.

Definition int_str_bound : Z := Eval vm_compute in 10 ^ int_max_str_digits.

Definition int_limit_msg : string :=
  "Exceeds the limit (4300 digits) for integer string conversion; " +:+
  "use sys.set_int_max_str_digits() to increase the limit".

Definition int_error (z : Z) : option exc :=
  if (int_str_bound <=? Z.abs z)%Z then Some (Exc ValueError int_limit_msg)
  else None.

Definition key_error (k : pykey) : option exc :=
  match k with
  | KOther ty => Some (Exc TypeError (bad_key_msg ty))
  | KInt z => int_error z
  | _ => None
  end.

(** The exception [json.dumps(v)] raises, if any: the encoder walks lists,
    tuples and dictionaries in order (a key before its value) and stops at
    the first item it cannot encode.  Every float is written ([nan] as
    NaN), a tuple is written as a list. *)
Fixpoint dumps_error (v : pyval) : option exc :=
  match v with
  | PNone | PBool _ | PStr _ | PFloat _ => None
  | PInt z => int_error z
  | PList l | PTuple l =>
      (fix items (l : list pyval) : option exc :=
         match l with
         | [] => None
         | x :: l' =>
             match dumps_error x with
             | Some e => Some e
             | None => items l'
             end
         end) l
  | PDict d =>
      (fix items (d : list (pykey * pyval)) : option exc :=
         match d with
         | [] => None
         | (k, x) :: d' =>
             match key_error k with
             | Some e => Some e
             | None =>
                 match dumps_error x with
                 | Some e => Some e
                 | None => items d'
                 end
             end
         end) d
  | PObj ty => Some (Exc TypeError (not_serializable_msg ty))
  | PEmpty c => Some (Exc TypeError (not_serializable_msg (empty_container_name c)))
  end.

(** [await websocket.send_json(v)]: the frame goes out only when the whole
    payload has been encoded. *)
Definition send_json (v : pyval) : M unit :=
  match dumps_error v with
  | Some e => raise e
  | None => emit (Sent v)
  end.

(** [obj.get(k)] as an attribute access on an arbitrary value. *)
Definition py_get (obj : pyval) (k : string) : M pyval :=
  match obj with
  | PDict d => ret (dict_get k d)
  | _ =>
      raise (Exc AttributeError
               ("'" +:+ type_name obj +:+ "' object has no attribute 'get'"))
  end.

(** ** [IpcServerResponse] *)

(** The type of a key, as [setattr] names it. *)
Definition key_type_name (k : pykey) : string :=
  match k with
  | KStr _ => "str"
  | KInt _ => "int"
  | KBool _ => "bool"
  | KNone => "NoneType"
  | KOther ty => ty
  | KFloat _ => "float"
  end.

(** The instance dictionary a mapping becomes when it is assigned to
    [__dict__]: its string keys are the attribute names (the keys of a
    decoded JSON object are strings). *)
Definition attrs_of (d : pydict) : IpcServerResponse_obj :=
  foldr (fun kv attrs =>
           match kv.1 with
           | KStr k => <[k := kv.2]> attrs
           | _ => attrs
           end) ∅ d.

(** [setattr(self, key, value)] for every item of [data["data"]], in order.
    The class has no [__slots__], so three names are not plain attributes:
    [__class__] takes only a class, [__weakref__] cannot be written, and
    [__dict__] takes only a mapping, which then replaces the instance
    dictionary; the attributes set before are gone and the items that
    follow are set in the new one.  Every other name goes into the
    instance dictionary. *)
Fixpoint setattr_items (self : IpcServerResponse_obj) (items : pydict)
    : result IpcServerResponse_obj :=
  match items with
  | [] => Ok self
  | (KStr key, value) :: items' =>
      if String.eqb key "__class__" then
        Raised (Exc TypeError
                  ("__class__ must be set to a class, not '" +:+ type_name value
                   +:+ "' object"))
      else if String.eqb key "__weakref__" then
        Raised (Exc AttributeError
                  "attribute '__weakref__' of 'IpcServerResponse' objects is not writable")
      else if String.eqb key "__dict__" then
        match value with
        | PDict d => setattr_items (attrs_of d) items'
        | _ =>
            Raised (Exc TypeError
                      ("__dict__ must be set to a dictionary, not a '"
                       +:+ type_name value +:+ "'"))
        end
      else setattr_items (<[key := value]> self) items'
  | (k, _) :: _ =>
      Raised (Exc TypeError
                ("attribute name must be string, not '" +:+ key_type_name k +:+ "'"))
  end.

(** What [len(data)] and then [data["endpoint"]] raise on a value that is
    not a mapping. *)
Definition not_a_mapping (data : pyval) : exc :=
  Exc TypeError
    match data with
    | PStr _ => "string indices must be integers, not 'str'"
    | PList _ => "list indices must be integers or slices, not str"
    | PTuple _ => "tuple indices must be integers or slices, not str"
    | PEmpty EmptyBytes => "byte indices must be integers or slices, not str"
    | PEmpty EmptyBytearray => "bytearray indices must be integers or slices, not str"
    | PEmpty c => "'" +:+ empty_container_name c +:+ "' object is not subscriptable"
    | _ => "object of type '" +:+ type_name data +:+ "' has no len()"
    end.

(** [IpcServerResponse.__init__(self, data)] *)
Definition IpcServerResponse (data : pyval) : result IpcServerResponse_obj :=
  match data with
  | PDict d =>
      let self : IpcServerResponse_obj := <["_json" := data]> ∅ in
      let self := <["length" := PInt (Z.of_nat (List.length d))]> self in
      match dict_lookup "endpoint" d with
      | None => Raised (Exc KeyError "'endpoint'")
      | Some endpoint =>
          let self := <["endpoint" := endpoint]> self in
          match dict_lookup "data" d with
          | None => Raised (Exc KeyError "'data'")
          | Some (PDict items) => setattr_items self items
          | Some v =>
              Raised (Exc AttributeError
                        ("'" +:+ type_name v +:+ "' object has no attribute 'items'"))
          end
      end
  | _ => Raised (not_a_mapping data)
  end.

(** The call [view.to_json()].  The name is looked up in the instance
    dictionary before the class: a data item named "to_json" hides the
    method, and calling that value raises.  The method itself reads the
    attribute [_json]. *)
Definition to_json (self : IpcServerResponse_obj) : result pyval :=
  match self !! "to_json" with
  | Some v =>
      Raised (Exc TypeError ("'" +:+ type_name v +:+ "' object is not callable"))
  | None =>
      match self !! "_json" with
      | Some v => Ok v
      | None =>
          Raised (Exc AttributeError
                    "'IpcServerResponse' object has no attribute '_json'")
      end
  end.

(** ** The server *)

Record Bot : Type := { cogs : gmap string Cog }.

(** The class object [Server]: its one class attribute, [Server.ROUTES]. *)
Record ServerClass : Type := { cls_ROUTES : gmap string handler }.

(** An instance of [Server].  [self_ROUTES] is the entry [ROUTES] of the
    instance dictionary: absent after [__init__], which never binds it, so
    that reading [self.ROUTES] falls through to the class attribute.
    [_runner] and [_webserver] are likewise bound only by [setup]. *)
Record Server : Type := {
  bot : Bot;
  host : string;
  port : Z;
  secret_key : option string;
  do_multicast : bool;
  multicast_port : Z;
  _server : option Application;
  _multicast_server : option Application;
  endpoints : gmap string handler;
  self_ROUTES : option (gmap string handler);
  _runner : option AppRunner;
  _webserver : option TCPSite
}.

(** [Server.__init__] *)
Definition Server_init (bot : Bot) (host : string) (port : Z)
    (secret_key : option string) (do_multicast : bool) (multicast_port : Z)
    : Server :=
  {| bot := bot; host := host; port := port; secret_key := secret_key;
     do_multicast := do_multicast; multicast_port := multicast_port;
     _server := None; _multicast_server := None;
     endpoints := ∅; self_ROUTES := None;
     _runner := None; _webserver := None |}.

(** [Server(bot)]: every keyword argument at its default. *)
Definition Server_default (bot : Bot) : Server :=
  Server_init bot "127.0.0.1" 1010 None true 20000.

Definition with_endpoints (eps : gmap string handler) (self : Server) : Server :=
  {| bot := bot self; host := host self; port := port self;
     secret_key := secret_key self; do_multicast := do_multicast self;
     multicast_port := multicast_port self;
     _server := _server self; _multicast_server := _multicast_server self;
     endpoints := eps; self_ROUTES := self_ROUTES self;
     _runner := _runner self; _webserver := _webserver self |}.

Definition with_ROUTES (r : gmap string handler) (self : Server) : Server :=
  {| bot := bot self; host := host self; port := port self;
     secret_key := secret_key self; do_multicast := do_multicast self;
     multicast_port := multicast_port self;
     _server := _server self; _multicast_server := _multicast_server self;
     endpoints := endpoints self; self_ROUTES := Some r;
     _runner := _runner self; _webserver := _webserver self |}.

Definition with_runner (r : AppRunner) (self : Server) : Server :=
  {| bot := bot self; host := host self; port := port self;
     secret_key := secret_key self; do_multicast := do_multicast self;
     multicast_port := multicast_port self;
     _server := _server self; _multicast_server := _multicast_server self;
     endpoints := endpoints self; self_ROUTES := self_ROUTES self;
     _runner := Some r; _webserver := _webserver self |}.

Definition with_webserver (w : TCPSite) (self : Server) : Server :=
  {| bot := bot self; host := host self; port := port self;
     secret_key := secret_key self; do_multicast := do_multicast self;
     multicast_port := multicast_port self;
     _server := _server self; _multicast_server := _multicast_server self;
     endpoints := endpoints self; self_ROUTES := self_ROUTES self;
     _runner := _runner self; _webserver := Some w |}.

(** *** Registration *)

(** [name or func.__name__] *)
Definition name_or (name : option string) (func : handler) : string :=
  match name with
  | Some n => if String.eqb n "" then h_name func else n
  | None => h_name func
  end.

(** The module-level decorator [route(name)(func)]:
    [Server.ROUTES[name or func.__name__] = func]. *)
Definition route (name : option string) (func : handler) (cls : ServerClass)
    : ServerClass :=
  {| cls_ROUTES := <[name_or name func := func]> (cls_ROUTES cls) |}.

(** The method decorator [self.route(name)(func)]. *)
Definition Server_route (name : option string) (func : handler) (self : Server)
    : Server :=
  with_endpoints (<[name_or name func := func]> (endpoints self)) self.

(** Reading [self.ROUTES]: the instance dictionary first, then the class. *)
Definition ROUTES (cls : ServerClass) (self : Server) : gmap string handler :=
  default (cls_ROUTES cls) (self_ROUTES self).

(** [{**a, **b}]: the entries of [a], overwritten and followed by those of
    [b].  stdpp's union keeps the left operand's entry on a common key. *)
Definition dict_unpack2 {V} (a b : gmap string V) : gmap string V := b ∪ a.

(** [Server.update_endpoints]:
    [self.endpoints = {**self.endpoints, **self.ROUTES}; self.ROUTES = {}].
    The second statement assigns through [self]: it binds the instance
    attribute [ROUTES], and the class object is returned as it came. *)
Definition update_endpoints (cls : ServerClass) (self : Server)
    : ServerClass * Server :=
  let self := with_endpoints (dict_unpack2 (endpoints self) (ROUTES cls self)) self in
  (cls, with_ROUTES ∅ self).

(** *** The primary listener *)

(** [headers.get("Authorization") != self.secret_key]: a [str] secret equals
    only the same string, the default secret [None] equals only [None]. *)
Definition py_ne_secret (token : pyval) (secret_key : option string) : bool :=
  negb match secret_key, token with
       | Some s, PStr t => String.eqb t s
       | None, PNone => true
       | _, _ => false
       end.

(** [not headers or headers.get("Authorization") != self.secret_key], the
    guard of both listeners (lines 167 and 258). *)
Definition unauthorized (headers : pyval) (secret_key : option string) : M bool :=
  if negb (truthy headers) then mret true
  else token ← py_get headers "Authorization";
       mret (py_ne_secret token secret_key).

(** What [hash(v)] raises, if anything: a list, a dictionary, a set and a
    bytearray cannot be hashed, and a tuple hashes its items in order. *)
Fixpoint hash_error (v : pyval) : option exc :=
  match v with
  | PList _ | PDict _ | PEmpty EmptySet | PEmpty EmptyBytearray =>
      Some (Exc TypeError ("unhashable type: '" +:+ type_name v +:+ "'"))
  | PTuple l =>
      (fix items (l : list pyval) : option exc :=
         match l with
         | [] => None
         | x :: l' =>
             match hash_error x with
             | Some e => Some e
             | None => items l'
             end
         end) l
  | _ => None
  end.

(** [endpoint not in self.endpoints]: the key is hashed and looked up; the
    keys of the table are strings, which no value of another class
    equals. *)
Definition not_in_endpoints (endpoint : pyval) (eps : gmap string handler) : M bool :=
  match endpoint with
  | PStr s => mret (match eps !! s with Some _ => false | None => true end)
  | _ =>
      match hash_error endpoint with
      | Some e => raise e
      | None => mret true
      end
  end.

(** [self.endpoints[endpoint]] *)
Definition endpoints_getitem (eps : gmap string handler) (endpoint : pyval) : M handler :=
  match endpoint with
  | PStr s =>
      match eps !! s with
      | Some h => mret h
      | None => raise (Exc KeyError ("'" +:+ s +:+ "'"))
      end
  | _ =>
      match hash_error endpoint with
      | Some e => raise e
      | None => raise (Exc KeyError "")
      end
  end.

(** [func.__qualname__] *)
Definition getattr_qualname (func : handler) : M string :=
  match h_qualname func with
  | Some q => mret q
  | None => raise (Exc AttributeError "object has no attribute '__qualname__'")
  end.

(** Awaiting [func] applied to the tuple [arguments]. *)
Definition await_call (endpoint : pyval) (func : handler) (arguments : option Cog)
    (server_response : IpcServerResponse_obj) : M pyval :=
  emit (Called endpoint arguments server_response);;
  lift (h_call func arguments server_response).

(** [response["code"] = 200] *)
Definition setitem (response : pyval) (k : string) (v : pyval) : M pyval :=
  match response with
  | PDict d => mret (PDict (dict_set k v d))
  | _ =>
      raise (Exc TypeError
               ("'" +:+ type_name response +:+ "' object does not support item assignment"))
  end.

Definition unauthorized_dispatch : string :=
  "Received unauthorized request (Invalid or no token provided).".
Definition unauthorized_error : string :=
  "Received unauthorized request (invalid or no token provided).".
Definition invalid_error : string :=
  "Received invalid request (invalid or no endpoint given).".
Definition error_response : string :=
  "IPC route returned values which are not able to be sent over sockets." +:+
  "If you are trying to send a discord.py object," +:+
  "please only send the data you need.".

Definition error_dict (msg : string) (code : Z) : pyval :=
  PDict [(KStr "error", PStr msg); (KStr "code", PInt code)].

(** Lines 181-209: build the view, pick the arguments, await the endpoint. *)
Definition invoke (self : Server) (endpoint request : pyval) : M pyval :=
  server_response ← lift (IpcServerResponse request);
  arguments ← try_except
      (func ← endpoints_getitem (endpoints self) endpoint;
       qualname ← getattr_qualname func;
       (* a cog instance is truthy, a missing one is None *)
       mret (cogs (bot self) !! split_dot_head qualname))
      isinstance_AttributeError
      (fun _ => mret None);
  try_except
      (func ← endpoints_getitem (endpoints self) endpoint;
       await_call endpoint func arguments server_response)
      isinstance_Exception
      (fun error =>
         emit (Dispatch_ipc_error endpoint error);;
         mret (error_dict (exc_str error) 500)).

(** Lines 167-209: the response chosen for one request. *)
Definition choose_response (self : Server) (endpoint headers request : pyval) : M pyval :=
  unauth ← unauthorized headers (secret_key self);
  if (unauth : bool) then
    emit (Dispatch_ipc_error endpoint (Exc PlainException unauthorized_dispatch));;
    mret (error_dict unauthorized_error 403)
  else
    invalid ← (if negb (truthy endpoint) then mret true
               else not_in_endpoints endpoint (endpoints self));
    if (invalid : bool) then
      emit (Dispatch_ipc_error endpoint (Exc PlainException invalid_error));;
      mret (error_dict invalid_error 400)
    else invoke self endpoint request.

(** Lines 211-234: default the code, send, and the [except TypeError]. *)
Definition send_response (endpoint response : pyval) : M unit :=
  try_except
      (code ← py_get response "code";
       response ← (if negb (truthy code) then setitem response "code" (PInt 200)
                   else mret response);
       send_json response)
      isinstance_TypeError
      (fun error =>
         if startswith "Object of type" (exc_str error)
            && endswith "is not JSON serializable" (exc_str error)
         then
           emit (Dispatch_ipc_error endpoint (Exc PlainException error_response));;
           send_json (error_dict error_response 500);;
           raise (Exc JSONEncodeError error_response)
         else mret tt).

(** The body of [async for message in websocket] in [handle_accept], from
    the decoded [request] on. *)
Definition handle_message (self : Server) (request : pyval) : M unit :=
  endpoint ← py_get request "endpoint";
  headers ← py_get request "headers";
  response ← choose_response self endpoint headers request;
  send_response endpoint response.

(** A text frame, by what [message.json()] makes of it: [Frame (Some v)]
    holds the JSON text of [v]; [Frame None] holds no JSON value at all (an
    empty text), on which the decoder raises.  The decoder itself is not
    part of the embedding. *)
Inductive ws_message : Type := Frame (decoded : option pyval).

Definition message_json (message : ws_message) : M pyval :=
  match message with
  | Frame (Some v) => mret v
  | Frame None =>
      raise (Exc JSONDecodeError "Expecting value: line 1 column 1 (char 0)")
  end.

(** The loop over the frames the client sends before it closes. *)
Fixpoint accept_loop (self : Server) (messages : list ws_message) : M unit :=
  match messages with
  | [] => mret tt
  | message :: rest =>
      request ← message_json message;
      handle_message self request;;
      accept_loop self rest
  end.

(** [Server.handle_accept] for one connection: the class and the instance
    after the merge, and what the loop did. *)
Definition handle_accept (cls : ServerClass) (self : Server)
    (messages : list ws_message) : ServerClass * Server * M unit :=
  let '(cls, self) := update_endpoints cls self in
  (cls, self, accept_loop self messages).

(** *** The discovery listener *)

Definition multicast_message (self : Server) (request : pyval) : M unit :=
  headers ← py_get request "headers";
  unauth ← unauthorized headers (secret_key self);
  let response :=
    if (unauth : bool) then error_dict "Invalid or no token provided." 403
    else PDict [(KStr "message", PStr "Connection success");
                (KStr "port", PInt (port self));
                (KStr "code", PInt 200)] in
  send_json response.

Fixpoint multicast_loop (self : Server) (messages : list ws_message) : M unit :=
  match messages with
  | [] => mret tt
  | message :: rest =>
      request ← message_json message;
      multicast_message self request;;
      multicast_loop self rest
  end.

(** [Server.handle_multicast] for one connection. *)
Definition handle_multicast (self : Server) (messages : list ws_message) : M unit :=
  multicast_loop self messages.

(** *** Start-up and teardown *)

(** What the aiohttp calls do when awaited: [None] when the call returns,
    [Some e] when it raises [e]. *)
Record Transport : Type := {
  runner_setup : AppRunner -> option exc;
  site_start : TCPSite -> option exc;
  runner_cleanup : AppRunner -> option exc;
  site_stop : TCPSite -> option exc
}.

Definition await_io (ev : event) (r : option exc) : M unit :=
  emit ev;;
  match r with
  | Some e => raise e
  | None => mret tt
  end.

(** [self.attr] for an attribute [__init__] does not bind. *)
Definition getattr {A} (name : string) (slot : option A) : M A :=
  match slot with
  | Some x => mret x
  | None =>
      raise (Exc AttributeError
               ("'Server' object has no attribute '" +:+ name +:+ "'"))
  end.

(** [Server.setup(application, port)]: the instance afterwards and what the
    coroutine did.  An assignment made before a failing await stays. *)
Definition setup (io : Transport) (application : Application) (port : Z)
    (self : Server) : Server * M unit :=
  let runner := AppRunner_of application in
  let self := with_runner runner self in
  match runner_setup io runner with
  | Some e => (self, await_io (RunnerSetup runner) (Some e))
  | None =>
      let webserver := TCPSite_of runner (host self) port in
      let self := with_webserver webserver self in
      (self,
       await_io (RunnerSetup runner) None;;
       await_io (SiteStart webserver) (site_start io webserver))
  end.

(** [Server.start]: the two applications, the [setup] coroutines handed to
    [bot.loop.create_task] in that order, and the ready event. *)
Definition start (self : Server) : Server * list (Application * Z) * M unit :=
  let self' :=
    {| bot := bot self; host := host self; port := port self;
       secret_key := secret_key self; do_multicast := do_multicast self;
       multicast_port := multicast_port self;
       _server := Some PrimaryApp;
       _multicast_server :=
         if do_multicast self then Some MulticastApp else _multicast_server self;
       endpoints := endpoints self; self_ROUTES := self_ROUTES self;
       _runner := _runner self; _webserver := _webserver self |} in
  let tasks :=
    (if do_multicast self then [(MulticastApp, multicast_port self)] else [])
    ++ [(PrimaryApp, port self)] in
  (self', tasks, emit Dispatch_ipc_ready).

(** The scheduled [setup] coroutines run to completion one after the other,
    in the order of their creation. *)
Fixpoint run_setups (io : Transport) (tasks : list (Application * Z))
    (self : Server) : Server * list event :=
  match tasks with
  | [] => (self, [])
  | (application, port) :: rest =>
      let '(self, m) := setup io application port self in
      let '(self, t) := run_setups io rest self in
      (self, trace m ++ t)
  end.

(** [Server.destroy] *)
Definition destroy (io : Transport) (self : Server) : M unit :=
  runner ← getattr "_runner" (_runner self);
  await_io (RunnerCleanup runner) (runner_cleanup io runner);;
  webserver ← getattr "_webserver" (_webserver self);
  (* [if self._webserver:] a TCPSite is truthy *)
  await_io (SiteStop webserver) (site_stop io webserver).

(** * The vocabulary of the properties *)

(** ** Requests and outcomes *)

(** The leading argument lines 183-193 pick for [func]: the cog registered
    under the first component of its qualified name, if there is one. *)
Definition cog_argument (self : Server) (func : handler) : option Cog :=
  match h_qualname func with
  | Some qualname => cogs (bot self) !! split_dot_head qualname
  | None => None
  end.

(** A request that passes the guard and names a registered endpoint, for
    which the view can be built. *)
Record routed (self : Server) (request : pydict) (name : string)
    (func : handler) (view : IpcServerResponse_obj) : Prop := {
  routed_authorized :
    unauthorized (dict_get "headers" request) (secret_key self) = mret false;
  routed_endpoint : dict_get "endpoint" request = PStr name;
  routed_name : name <> "";
  routed_registered : endpoints self !! name = Some func;
  routed_view : IpcServerResponse (PDict request) = Ok view
}.

(** What lines 212-213 leave in [response]. *)
Definition with_default_code (d : pydict) : pydict :=
  if truthy (dict_get "code" d) then d else dict_set "code" (PInt 200) d.

(** [self.secret_key] as a value: the string, or [None] when the server was
    created without one. *)
Definition secret_value (secret_key : option string) : pyval :=
  match secret_key with
  | Some s => PStr s
  | None => PNone
  end.

(** The ways the specification names for a request to carry no valid token,
    for the secret [s]: no headers (the field absent, or holding a falsy
    value: null, false, zero, an empty string, list or mapping), headers
    that are a mapping without "Authorization", headers that are a mapping
    with another value under it. *)
Inductive rejected_headers (s : string) (request : pydict) : Prop :=
| headers_missing :
    dict_lookup "headers" request = None -> rejected_headers s request
| headers_falsy v :
    dict_lookup "headers" request = Some v ->
    truthy v = false ->
    rejected_headers s request
| authorization_missing hd :
    dict_lookup "headers" request = Some (PDict hd) ->
    dict_lookup "Authorization" hd = None ->
    rejected_headers s request
| authorization_differs hd token :
    dict_lookup "headers" request = Some (PDict hd) ->
    dict_lookup "Authorization" hd = Some token ->
    token <> PStr s ->
    rejected_headers s request.

(** The ways the specification names for a request to name no endpoint of
    the table the loop runs on: no endpoint field (absent or null), the
    empty string, a string that is not a key of the table. *)
Inductive no_such_endpoint (self : Server) (request : pydict) : Prop :=
| endpoint_missing :
    dict_lookup "endpoint" request = None -> no_such_endpoint self request
| endpoint_null :
    dict_lookup "endpoint" request = Some PNone -> no_such_endpoint self request
| endpoint_empty :
    dict_lookup "endpoint" request = Some (PStr "") -> no_such_endpoint self request
| endpoint_unknown name :
    dict_lookup "endpoint" request = Some (PStr name) ->
    endpoints self !! name = None ->
    no_such_endpoint self request.

(** The same for any endpoint field line 174 can decide on: the field is
    absent or falsy (null, false, zero, an empty string, list or mapping),
    or it is a string that is not a key of the table, or a value of
    another class that can be hashed (a number, true), which no key
    equals. *)
Inductive unroutable (self : Server) (request : pydict) : Prop :=
| unroutable_missing :
    dict_lookup "endpoint" request = None -> unroutable self request
| unroutable_falsy v :
    dict_lookup "endpoint" request = Some v ->
    truthy v = false ->
    unroutable self request
| unroutable_unknown name :
    dict_lookup "endpoint" request = Some (PStr name) ->
    endpoints self !! name = None ->
    unroutable self request
| unroutable_other v :
    dict_lookup "endpoint" request = Some v ->
    (forall name, v <> PStr name) ->
    hash_error v = None ->
    unroutable self request.

(** The handler's mapping has no "code", or a falsy one. *)
Definition code_missing_or_falsy (d : pydict) : Prop :=
  dict_lookup "code" d = None \/
  exists v, dict_lookup "code" d = Some v /\ truthy v = false.



(** No endpoint coroutine was awaited. *)
Definition no_call (t : list event) : Prop :=
  forall endpoint cog view, ~ In (Called endpoint cog view) t.

Definition is_dispatch (ev : event) : bool :=
  match ev with Dispatch_ipc_error _ _ => true | _ => false end.

(** ** Scenarios *)

(** A bot with no cog loaded. *)
Definition no_cogs : Bot := {| cogs := ∅ |}.

(** The scenario of the specification: one endpoint "ping" answering
    [{"pong": true}]. *)
Definition pong : handler :=
  Handler "ping" (Some "ping") (fun _ _ => Ok (PDict [(KStr "pong", PBool true)])).

Definition ping_server (secret : option string) : Server :=
  Server_route (Some "ping") pong
    (Server_init no_cogs "127.0.0.1" 1010 secret true 20000).

Definition ping_request (headers : pydict) : pydict :=
  [(KStr "endpoint", PStr "ping"); (KStr "data", PDict []);
   (KStr "headers", PDict headers)].

(** Two coroutines registered under the same name, one through the
    module-level decorator and one on the instance. *)
Definition ping_of_module : handler :=
  Handler "ping" (Some "ping")
    (fun _ _ => Ok (PDict [(KStr "from", PStr "module")])).

Definition ping_of_instance : handler :=
  Handler "ping" (Some "ping")
    (fun _ _ => Ok (PDict [(KStr "from", PStr "instance")])).

Definition module_class : ServerClass := route None ping_of_module {| cls_ROUTES := ∅ |}.

Definition colliding_server : Server :=
  Server_route (Some "ping") ping_of_instance (Server_default no_cogs).

(** An endpoint that returns a discord.py object under "avatar". *)
Definition avatar : handler :=
  Handler "avatar" (Some "avatar")
    (fun _ _ => Ok (PDict [(KStr "avatar", PObj "Asset")])).

(** An endpoint that returns a table keyed by tuples under "result". *)
Definition table : handler :=
  Handler "table" (Some "table")
    (fun _ _ => Ok (PDict [(KStr "result", PDict [(KOther "tuple", PStr "x")])])).

(** An endpoint that raises. *)
Definition broken : handler :=
  Handler "broken" (Some "broken") (fun _ _ => Raised (Exc ValueError "no such guild")).

Definition demo_server : Server :=
  Server_route None broken
    (Server_route None table
       (Server_route None avatar (ping_server (Some "s3cr3t")))).

Definition request_for (name : string) : pydict :=
  [(KStr "endpoint", PStr name); (KStr "data", PDict []);
   (KStr "headers", PDict [(KStr "Authorization", PStr "s3cr3t")])].

(** The view [IpcServerResponse] builds for a three-field request to "ping"
    with empty data, and for [request_for name]. *)
Definition view_for_request (request : pydict) : IpcServerResponse_obj :=
  <["endpoint" := PStr "ping"]>
    (<["length" := PInt 3]> (<["_json" := PDict request]> ∅)).

Definition view_for (name : string) : IpcServerResponse_obj :=
  <["endpoint" := PStr name]>
    (<["length" := PInt 3]> (<["_json" := PDict (request_for name)]> ∅)).

(** A probe of the discovery listener. *)
Definition probe (headers : pydict) : pydict := [(KStr "headers", PDict headers)].

(** Every aiohttp call returns. *)
Definition healthy : Transport :=
  {| runner_setup := fun _ => None; site_start := fun _ => None;
     runner_cleanup := fun _ => None; site_stop := fun _ => None |}.

(** As [healthy], except that cleaning up a runner raises. *)
Definition cleanup_raises : Transport :=
  {| runner_setup := fun _ => None; site_start := fun _ => None;
     runner_cleanup := fun _ => Some (Exc (UserException "RuntimeError") "cleanup failed");
     site_stop := fun _ => None |}.

(** A default server after [start] and after both scheduled [setup]
    coroutines have run. *)
Definition started : Server * list (Application * Z) * M unit :=
  start (Server_default no_cogs).

Definition running : Server := (run_setups healthy started.1.2 started.1.1).1.

(** ** Further vocabulary *)

Definition is_sent (ev : event) : bool :=
  match ev with Sent _ => true | _ => false end.

Definition is_called (ev : event) : bool :=
  match ev with Called _ _ _ => true | _ => false end.

(** How many events of a trace satisfy [p]. *)
Definition count (p : event -> bool) (t : list event) : nat :=
  List.length (List.filter p t).

(** The keys of a mapping are strings, as in everything [message.json()]
    returns. *)
Definition str_keys (items : pydict) : Prop :=
  Forall (fun kv => exists k, kv.1 = KStr k) items.

(** The mapping has no entry under the string key [k]. *)
Definition no_key (k : string) (items : pydict) : Prop :=
  forall v, ~ In (KStr k, v) items.


(** An item [setattr] accepts in the constructor of the view: its key is a
    string other than "__class__" and "__weakref__", and under "__dict__"
    it holds a mapping. *)
Definition settable (kv : pykey * pyval) : Prop :=
  exists k, kv.1 = KStr k /\ k <> "__class__" /\ k <> "__weakref__" /\
            (k = "__dict__" -> exists d, kv.2 = PDict d).

(** A value of a builtin class without a [get] method. *)
Definition has_no_get (v : pyval) : Prop :=
  match v with
  | PDict _ | PObj _ => False
  | _ => True
  end.

(** The headers field of a probe or request is absent, null or a
    mapping. *)
Definition headers_field_ok (request : pydict) : Prop :=
  dict_lookup "headers" request = None \/
  dict_lookup "headers" request = Some PNone \/
  exists hd, dict_lookup "headers" request = Some (PDict hd).

(** The string has no dot. *)
Fixpoint no_dot (s : string) : bool :=
  match s with
  | EmptyString => true
  | String c s' => negb (Ascii.eqb c "."%char) && no_dot s'
  end.

Definition is_cleanup (ev : event) : bool :=
  match ev with RunnerCleanup _ => true | _ => false end.

Definition is_stop (ev : event) : bool :=
  match ev with SiteStop _ => true | _ => false end.

(** The frames of a list of decoded requests. *)
Definition frames (requests : list pydict) : list ws_message :=
  map (fun request => Frame (Some (PDict request))) requests.

(** The three errors of the encoder. *)
Inductive dumps_raises : option exc -> Prop :=
| raises_nothing : dumps_raises None
| raises_not_serializable ty :
    dumps_raises (Some (Exc TypeError (not_serializable_msg ty)))
| raises_bad_key ty :
    dumps_raises (Some (Exc TypeError (bad_key_msg ty)))
| raises_int_limit :
    dumps_raises (Some (Exc ValueError int_limit_msg)).

(** The outcomes of one request, by the stage that decides them. *)
Inductive message_shape (self : Server) (request : pyval) : M unit -> Prop :=
| shape_raised e :
    message_shape self request ([], Raised e)
| shape_refused err msg code (d : pydict) :
    request = PDict d ->
    code <> 0 ->
    message_shape self request
      ([Dispatch_ipc_error (dict_get "endpoint" d) err; Sent (error_dict msg code)],
       Ok tt)
| shape_failed (d : pydict) name func view e :
    request = PDict d ->
    routed self d name func view ->
    message_shape self request
      ([Called (PStr name) (cog_argument self func) view;
        Dispatch_ipc_error (PStr name) e;
        Sent (error_dict (exc_str e) 500)],
       Ok tt)
| shape_called (d : pydict) name func view r :
    request = PDict d ->
    routed self d name func view ->
    message_shape self request
      ([Called (PStr name) (cog_argument self func) view], r)
| shape_answered (d : pydict) name func view (returned : pydict) :
    request = PDict d ->
    routed self d name func view ->
    message_shape self request
      ([Called (PStr name) (cog_argument self func) view;
        Sent (PDict (with_default_code returned))],
       Ok tt)
| shape_fallback (d : pydict) name func view :
    request = PDict d ->
    routed self d name func view ->
    message_shape self request
      ([Called (PStr name) (cog_argument self func) view;
        Dispatch_ipc_error (PStr name) (Exc PlainException error_response);
        Sent (error_dict error_response 500)],
       Raised (Exc JSONEncodeError error_response)).

(** Induction on values through the lists and mappings they nest. *)
Section PyvalInduction.
Variable P : pyval -> Prop.
Hypothesis HNone : P PNone.
Hypothesis HBool : forall b, P (PBool b).
Hypothesis HInt : forall z, P (PInt z).
Hypothesis HStr : forall s, P (PStr s).
Hypothesis HList : forall l, List.Forall P l -> P (PList l).
Hypothesis HDict : forall d, List.Forall (fun kv => P kv.2) d -> P (PDict d).
Hypothesis HObj : forall ty, P (PObj ty).
Hypothesis HFloat : forall f, P (PFloat f).
Hypothesis HTuple : forall l, List.Forall P l -> P (PTuple l).
Hypothesis HEmpty : forall c, P (PEmpty c).

Fixpoint pyval_nested_ind (v : pyval) : P v :=
  match v with
  | PNone => HNone
  | PBool b => HBool b
  | PInt z => HInt z
  | PStr s => HStr s
  | PList l =>
      HList l
        ((fix go (l : list pyval) : List.Forall P l :=
            match l with
            | [] => @List.Forall_nil _ P
            | x :: l' => @List.Forall_cons _ P x l' (pyval_nested_ind x) (go l')
            end) l)
  | PDict d =>
      HDict d
        ((fix go (d : list (pykey * pyval)) : List.Forall (fun kv => P kv.2) d :=
            match d with
            | [] => @List.Forall_nil _ (fun kv => P kv.2)
            | kv :: d' =>
                @List.Forall_cons _ (fun kv => P kv.2) kv d'
                  (pyval_nested_ind kv.2) (go d')
            end) d)
  | PObj ty => HObj ty
  | PFloat f => HFloat f
  | PTuple l =>
      HTuple l
        ((fix go (l : list pyval) : List.Forall P l :=
            match l with
            | [] => @List.Forall_nil _ P
            | x :: l' => @List.Forall_cons _ P x l' (pyval_nested_ind x) (go l')
            end) l)
  | PEmpty c => HEmpty c
  end.
End PyvalInduction.

(** ** Further scenarios *)

(** A coroutine with no return statement. *)
Definition silent : handler :=
  Handler "silent" (Some "silent") (fun _ _ => Ok PNone).

(** A coroutine cancelled while it runs. *)
Definition cancelled : handler :=
  Handler "cancelled" (Some "cancelled")
    (fun _ _ => Raised (Exc (BaseOnly "CancelledError") "")).

(** A coroutine that calls [sys.exit("shutting down")], on a server of its
    own. *)
Definition quitting : handler :=
  Handler "quit" (Some "quit")
    (fun _ _ => Raised (Exc (BaseOnly "SystemExit") "shutting down")).

Definition quitting_server : Server := Server_route None quitting demo_server.

(** A request whose endpoint field is a list. *)
Definition list_request : pydict :=
  [(KStr "endpoint", PList [PStr "ping"]); (KStr "data", PDict []);
   (KStr "headers", PDict [(KStr "Authorization", PStr "s3cr3t")])].

(** A request whose endpoint field is a number. *)
Definition number_request : pydict :=
  [(KStr "endpoint", PInt 7); (KStr "data", PDict []);
   (KStr "headers", PDict [(KStr "Authorization", PStr "s3cr3t")])].



(** A server created with a port of 4301 digits. *)
Definition wide_port_server : Server :=
  Server_init no_cogs "127.0.0.1" int_str_bound (Some "s3cr3t") true 20000.

(** A coroutine that answers with the "text" item of the request data. *)
Definition echo : handler :=
  Handler "echo" (Some "echo")
    (fun _ view => Ok (PDict [(KStr "echo", default PNone (view !! "text"))])).

(** A coroutine that sets its own code. *)
Definition teapot : handler :=
  Handler "teapot" (Some "teapot")
    (fun _ _ => Ok (PDict [(KStr "code", PInt 418); (KStr "brew", PStr "tea")])).

(** A method of the cog class [Stats]: it answers with the name of the cog
    it was given, or null. *)
Definition members : handler :=
  Handler "members" (Some "Stats.members")
    (fun cog _ =>
       Ok (PDict [(KStr "cog", match cog with
                               | Some (CogInstance n) => PStr n
                               | None => PNone
                               end)])).

Definition stats_bot : Bot := {| cogs := {["Stats" := CogInstance "Stats"]} |}.

Definition full_server : Server :=
  Server_route None members
    (Server_route None teapot
       (Server_route None echo
          (Server_route None cancelled
             (Server_route None silent
                (Server_init stats_bot "127.0.0.1" 1010 (Some "s3cr3t") true 20000))))).

(** A request to "echo" with two data items, and the view built for it. *)
Definition echo_request : pydict :=
  [(KStr "endpoint", PStr "echo");
   (KStr "data", PDict [(KStr "text", PStr "hi"); (KStr "guild", PInt 7)]);
   (KStr "headers", PDict [(KStr "Authorization", PStr "s3cr3t")])].

Definition echo_view : IpcServerResponse_obj :=
  <["guild" := PInt 7]>
    (<["text" := PStr "hi"]>
       (<["endpoint" := PStr "echo"]>
          (<["length" := PInt 3]> (<["_json" := PDict echo_request]> ∅)))).

(** A request to "ping" that has no "data" entry. *)
Definition bare_request : pydict :=
  [(KStr "endpoint", PStr "ping");
   (KStr "headers", PDict [(KStr "Authorization", PStr "s3cr3t")])].

(** As [healthy], except that setting up a runner raises. *)
Definition runner_setup_raises : Transport :=
  {| runner_setup := fun _ => Some (Exc (UserException "OSError") "address in use");
     site_start := fun _ => None;
     runner_cleanup := fun _ => None; site_stop := fun _ => None |}.

(** The answer of the discovery listener to a probe it accepts. *)
Definition connection_success (self : Server) : pydict :=
  [(KStr "message", PStr "Connection success");
   (KStr "port", PInt (port self));
   (KStr "code", PInt 200)].

(** * Properties *)

(** ** The monad *)

Lemma bind_ret_l {A B} (a : A) (f : A -> M B) : mret a ≫= f = f a.
Proof. unfold mbind, M_bind, mret, M_ret, bind, ret. by destruct (f a). Qed.

Lemma bind_raise {A B} (e : exc) (f : A -> M B) : raise e ≫= f = raise e.
Proof. reflexivity. Qed.

Lemma bind_lift_ok {A B} (a : A) (f : A -> M B) : lift (Ok a) ≫= f = f a.
Proof. apply bind_ret_l. Qed.

Lemma try_except_ret {A} (a : A) catches (on_exc : exc -> M A) :
  try_except (mret a) catches on_exc = mret a.
Proof. reflexivity. Qed.

Lemma try_except_raise {A} (e : exc) catches (on_exc : exc -> M A) :
  catches e = true -> try_except (raise e) catches on_exc = on_exc e.
Proof. intros H. unfold try_except, raise. rewrite H. by destruct (on_exc e). Qed.

Lemma bind_trace {A B} (m : M A) (f : A -> M B) a :
  outcome m = Ok a ->
  m ≫= f = (trace m ++ trace (f a), outcome (f a)).
Proof.
  destruct m as [t r]. unfold outcome, trace. simpl. intros ->.
  unfold mbind, M_bind, bind. by destruct (f a).
Qed.

Lemma bind_raised {A B} (m : M A) (f : A -> M B) e :
  outcome m = Raised e -> m ≫= f = (trace m, Raised e).
Proof. destruct m as [t r]. unfold outcome, trace. simpl. by intros ->. Qed.

(** ** Strings *)

Lemma prefix_app (p s : string) : String.prefix p (p +:+ s) = true.
Proof.
  induction p as [|c p IH]; simpl.
  - by destruct s.
  - by destruct (ascii_dec c c).
Qed.

Lemma endswith_app (suf s : string) : endswith suf (s +:+ suf) = true.
Proof.
  induction s as [|c s IH]; simpl.
  - destruct suf; simpl; [done|]. by rewrite Ascii.eqb_refl, String.eqb_refl.
  - rewrite IH. by rewrite orb_true_r.
Qed.

(** ** The route tables *)

Section Registry.
Implicit Types (cls : ServerClass) (self : Server) (name : string).

Lemma dict_unpack2_lookup {V} (a b : gmap string V) name :
  dict_unpack2 a b !! name =
  match b !! name with Some v => Some v | None => a !! name end.
Proof.
  unfold dict_unpack2. rewrite lookup_union.
  by destruct (b !! name), (a !! name).
Qed.

(** Resolution after the merge: the entry [self.ROUTES] has for the name
    if there is one, the instance's own entry otherwise. *)
Lemma update_endpoints_lookup cls self name :
  endpoints (update_endpoints cls self).2 !! name =
  match ROUTES cls self !! name with
  | Some h => Some h
  | None => endpoints self !! name
  end.
Proof. unfold update_endpoints. simpl. apply dict_unpack2_lookup. Qed.

Lemma update_endpoints_class cls self : (update_endpoints cls self).1 = cls.
Proof. reflexivity. Qed.

Lemma update_endpoints_shadows cls self :
  self_ROUTES (update_endpoints cls self).2 = Some ∅.
Proof. reflexivity. Qed.

(** A second merge on the same instance reads the instance's own empty
    [ROUTES], whatever the class table holds by then. *)
Lemma update_endpoints_again cls cls' self :
  endpoints (update_endpoints cls' (update_endpoints cls self).2).2 =
  endpoints (update_endpoints cls self).2.
Proof.
  apply map_eq. intros name. rewrite update_endpoints_lookup.
  unfold ROUTES. rewrite update_endpoints_shadows. simpl.
  by rewrite lookup_empty.
Qed.
End Registry.

(** C2, as the code has it: when the class table [Server.ROUTES] and the
    instance table [self.endpoints] are merged by an instance that has not
    merged before, a name present in both resolves to the handler of the
    class table, the one registered through the module-level [route]. *)
Theorem merge_routes_take_precedence (cls : ServerClass) (self : Server)
    (name : string) (h_routes h_instance : handler) :
  self_ROUTES self = None ->
  cls_ROUTES cls !! name = Some h_routes ->
  endpoints self !! name = Some h_instance ->
  endpoints (update_endpoints cls self).2 !! name = Some h_routes.
Proof.
  intros Hfresh Hr _. rewrite update_endpoints_lookup.
  unfold ROUTES. rewrite Hfresh. simpl. by rewrite Hr.
Qed.

Lemma merge_routes_take_precedence_witness :
  self_ROUTES colliding_server = None /\
  cls_ROUTES module_class !! "ping" = Some ping_of_module /\
  endpoints colliding_server !! "ping" = Some ping_of_instance /\
  endpoints (update_endpoints module_class colliding_server).2 !! "ping"
  = Some ping_of_module.
Proof.
  assert (H1 : self_ROUTES colliding_server = None) by reflexivity.
  assert (H2 : cls_ROUTES module_class !! "ping" = Some ping_of_module)
    by (vm_compute; reflexivity).
  assert (H3 : endpoints colliding_server !! "ping" = Some ping_of_instance)
    by (vm_compute; reflexivity).
  exact (conj H1 (conj H2 (conj H3
    (merge_routes_take_precedence module_class colliding_server "ping"
       ping_of_module ping_of_instance H1 H2 H3)))).
Defined.

(** C2 as stated fails: "ping" is registered in both tables, and after the
    merge it resolves to the module-level handler, whose answer differs
    from the answer of the handler registered on the instance. *)
Lemma merge_instance_entry_overwritten :
  cls_ROUTES module_class !! "ping" = Some ping_of_module /\
  endpoints colliding_server !! "ping" = Some ping_of_instance /\
  endpoints (update_endpoints module_class colliding_server).2 !! "ping"
  = Some ping_of_module /\
  Some ping_of_module <> Some ping_of_instance.
Proof.
  repeat split; try (vm_compute; reflexivity).
  intros H. injection H as H.
  apply (f_equal (fun f => f None (∅ : IpcServerResponse_obj))) in H.
  discriminate H.
Qed.

(** The merge of one instance leaves the class table to the next: an
    instance that has not merged yet takes every route of it. *)
Lemma class_routes_reach_next_instance (cls : ServerClass) (first second : Server)
    (name : string) (func : handler) :
  self_ROUTES second = None ->
  cls_ROUTES cls !! name = Some func ->
  endpoints (update_endpoints (update_endpoints cls first).1 second).2 !! name
  = Some func.
Proof.
  intros Hfresh Hr. rewrite update_endpoints_class, update_endpoints_lookup.
  unfold ROUTES. rewrite Hfresh. simpl. by rewrite Hr.
Qed.

(** C9, evaluated: one route registered through the module-level decorator,
    then two instances created with defaults.  After the first instance has
    merged, the class table still holds the route, and the merge of the
    second instance puts it into that instance's table. *)
Theorem routes_reach_second_instance :
  let first := Server_default no_cogs in
  let second := Server_default no_cogs in
  let cls_after := (update_endpoints module_class first).1 in
  cls_ROUTES cls_after !! "ping" = Some ping_of_module /\
  endpoints second !! "ping" = None /\
  endpoints (update_endpoints cls_after second).2 !! "ping" = Some ping_of_module.
Proof. repeat split; vm_compute; reflexivity. Qed.


(** ** The guard *)

Section Guard.
Implicit Types (self : Server) (headers endpoint : pyval) (hd : pydict).

Lemma dict_get_lookup k d v :
  dict_lookup k d = Some v -> dict_get k d = v.
Proof. unfold dict_get. by intros ->. Qed.

Lemma dict_get_absent k d :
  dict_lookup k d = None -> dict_get k d = PNone.
Proof. unfold dict_get. by intros ->. Qed.

Lemma dict_lookup_truthy k d v : dict_lookup k d = Some v -> truthy (PDict d) = true.
Proof. by destruct d. Qed.

Lemma py_ne_secret_false token s :
  py_ne_secret token (Some s) = false <-> token = PStr s.
Proof.
  unfold py_ne_secret. split.
  - destruct token; try discriminate. intros H.
    apply negb_false_iff, String.eqb_eq in H. by subst.
  - intros ->. by rewrite String.eqb_refl.
Qed.

(** The guard reaches a verdict on falsy headers, which it refuses, and on
    a non-empty mapping, where the token decides. *)
Lemma unauthorized_verdict headers secret (b : bool) :
  unauthorized headers secret = mret b ->
  (truthy headers = false /\ b = true) \/
  (exists hd, headers = PDict hd /\ hd <> [] /\
              b = py_ne_secret (dict_get "Authorization" hd) secret).
Proof.
  unfold unauthorized. destruct (truthy headers) eqn:Ht; cbn [negb].
  - intros H. right.
    destruct headers as [| | | | |hd| | | |]; try discriminate H.
    exists hd. split; [done|]. split; [by destruct hd|].
    cbn [py_get] in H. rewrite bind_ret_l in H. by injection H as <-.
  - intros H. left. split; [done|]. by injection H as <-.
Qed.

Lemma unauthorized_cases (headers : pyval) (secret : option string) :
  (exists b, unauthorized headers secret = mret b) \/
  (exists e, unauthorized headers secret = raise e).
Proof.
  unfold unauthorized.
  destruct (truthy headers); cbn [negb]; [|left; by eexists].
  destruct headers; try (right; by eexists).
  left. cbn [py_get]. rewrite bind_ret_l. by eexists.
Qed.

(** With a string secret the guard lets a request through exactly when its
    headers are a mapping that maps "Authorization" to that string. *)
Lemma unauthorized_false_iff headers s :
  unauthorized headers (Some s) = mret false <->
  exists hd, headers = PDict hd /\ dict_lookup "Authorization" hd = Some (PStr s).
Proof.
  split.
  - intros [[_ H] | (hd & -> & _ & H)]%unauthorized_verdict; [discriminate H|].
    exists hd. split; [done|].
    symmetry in H. apply py_ne_secret_false in H. unfold dict_get in H.
    destruct (dict_lookup "Authorization" hd); simpl in H; by subst.
  - intros (hd & -> & H). unfold unauthorized.
    rewrite (dict_lookup_truthy _ _ _ H). simpl.
    rewrite (dict_get_lookup _ _ _ H).
    assert (py_ne_secret (PStr s) (Some s) = false) as -> by by apply py_ne_secret_false.
    reflexivity.
Qed.

(** Headers that carry the secret under "Authorization" pass the guard,
    whatever the secret is. *)
Lemma authenticated_passes_guard hd (secret : option string) :
  dict_lookup "Authorization" hd = Some (secret_value secret) ->
  unauthorized (PDict hd) secret = mret false.
Proof.
  intros H. unfold unauthorized.
  rewrite (dict_lookup_truthy _ _ _ H). cbn [negb py_get].
  rewrite bind_ret_l, (dict_get_lookup _ _ _ H).
  destruct secret as [s|]; [|done].
  unfold py_ne_secret, secret_value. by rewrite String.eqb_refl.
Qed.

Lemma rejected_headers_unauthorized s (request : pydict) :
  rejected_headers s request ->
  unauthorized (dict_get "headers" request) (Some s) = mret true.
Proof.
  intros [H | v H Hv | hd H Hk | hd token H Hk Hne].
  - by rewrite (dict_get_absent _ _ H).
  - rewrite (dict_get_lookup _ _ _ H). unfold unauthorized. by rewrite Hv.
  - rewrite (dict_get_lookup _ _ _ H). unfold unauthorized.
    destruct hd as [|p hd]; [done|]. simpl.
    by rewrite (dict_get_absent _ _ Hk).
  - rewrite (dict_get_lookup _ _ _ H). unfold unauthorized.
    rewrite (dict_lookup_truthy _ _ _ Hk). simpl.
    rewrite (dict_get_lookup _ _ _ Hk).
    destruct (py_ne_secret token (Some s)) eqn:E; [done|].
    by apply py_ne_secret_false in E.
Qed.

Lemma int_error_fits z : (Z.abs z < int_str_bound)%Z -> int_error z = None.
Proof.
  intros H. unfold int_error.
  by destruct (Z.leb_spec int_str_bound (Z.abs z)); [lia|].
Qed.

Lemma int_error_status z : (100 <= z < 600)%Z -> int_error z = None.
Proof.
  intros H. apply int_error_fits.
  assert (600 <= int_str_bound)%Z by (by apply Z.leb_le; vm_compute).
  lia.
Qed.

(** The 403, 400 and 500 dictionaries are sent as they are. *)
Lemma send_response_error_dict endpoint msg code :
  (100 <= code < 600)%Z ->
  send_response endpoint (error_dict msg code) = ([Sent (error_dict msg code)], Ok tt).
Proof.
  intros Hc. unfold send_response, error_dict.
  cbn [py_get dict_get dict_lookup key_is String.eqb Ascii.eqb Bool.eqb default
       from_option id].
  rewrite !bind_ret_l.
  assert (Hz : (code =? 0)%Z = false) by (apply Z.eqb_neq; lia).
  cbn [truthy]. rewrite Hz. cbn [negb]. rewrite bind_ret_l.
  unfold send_json.
  cbn [dumps_error key_error]. by rewrite (int_error_status _ Hc).
Qed.

Lemma choose_response_unauthorized self endpoint headers request :
  unauthorized headers (secret_key self) = mret true ->
  choose_response self endpoint headers request =
  ([Dispatch_ipc_error endpoint (Exc PlainException unauthorized_dispatch)],
   Ok (error_dict unauthorized_error 403)).
Proof. intros H. unfold choose_response. by rewrite H. Qed.

Lemma handle_message_unauthorized self (request : pydict) :
  unauthorized (dict_get "headers" request) (secret_key self) = mret true ->
  handle_message self (PDict request) =
  ([Dispatch_ipc_error (dict_get "endpoint" request)
      (Exc PlainException unauthorized_dispatch);
    Sent (error_dict unauthorized_error 403)],
   Ok tt).
Proof.
  intros H. unfold handle_message. simpl.
  rewrite (choose_response_unauthorized _ _ _ _ H).
  reflexivity.
Qed.
End Guard.

(** C1, for a server whose secret is a string and a request that is a JSON
    object: when its headers are missing (the field absent or falsy), or
    are a mapping that lacks "Authorization" or carries another value under
    it, the request is answered with the 403 dictionary after one error
    event and no endpoint is called; and the guard passes exactly the
    headers that are a mapping with "Authorization" equal to the secret. *)
Theorem unauthorized_request_gets_403 (self : Server) (s : string)
    (request : pydict) :
  secret_key self = Some s ->
  (rejected_headers s request ->
   handle_message self (PDict request) =
     ([Dispatch_ipc_error (dict_get "endpoint" request)
         (Exc PlainException unauthorized_dispatch);
       Sent (error_dict unauthorized_error 403)],
      Ok tt) /\
   no_call (trace (handle_message self (PDict request)))) /\
  (forall headers,
     unauthorized headers (secret_key self) = mret false <->
     exists hd, headers = PDict hd /\
                dict_lookup "Authorization" hd = Some (PStr s)).
Proof.
  intros Hs. split.
  - intros Hrej. apply rejected_headers_unauthorized in Hrej.
    rewrite <- Hs in Hrej.
    rewrite (handle_message_unauthorized _ _ Hrej). split; [done|].
    intros ep cog view [H | [H | []]]; discriminate H.
  - intros headers. rewrite Hs. apply unauthorized_false_iff.
Qed.

Lemma unauthorized_request_gets_403_witness :
  secret_key (ping_server (Some "s3cr3t")) = Some "s3cr3t" /\
  rejected_headers "s3cr3t" (ping_request [(KStr "Authorization", PStr "wrong")]) /\
  handle_message (ping_server (Some "s3cr3t"))
    (PDict (ping_request [(KStr "Authorization", PStr "wrong")])) =
  ([Dispatch_ipc_error (PStr "ping") (Exc PlainException unauthorized_dispatch);
    Sent (error_dict unauthorized_error 403)],
   Ok tt).
Proof.
  assert (Hs : secret_key (ping_server (Some "s3cr3t")) = Some "s3cr3t")
    by reflexivity.
  assert (Hr : rejected_headers "s3cr3t"
                 (ping_request [(KStr "Authorization", PStr "wrong")])).
  { eapply authorization_differs; [reflexivity | reflexivity | discriminate]. }
  exact (conj Hs (conj Hr
    (proj1 (proj1 (unauthorized_request_gets_403 _ _ _ Hs) Hr)))).
Defined.

(** C1 as stated fails in two ways.  On a server created with the default
    [secret_key], the headers below have no "Authorization" key, and still
    the endpoint is called and its answer sent with code 200.  And on a
    server with a secret, headers that are not a mapping (here a string)
    carry no "Authorization" either, but no 403 is sent: [headers.get]
    raises [AttributeError], which ends the loop of the connection with no
    frame and no error event. *)
Lemma default_secret_passes_missing_token :
  secret_key (ping_server None) = None /\
  dict_lookup "Authorization" [(KStr "User-Agent", PStr "client")] = None /\
  (exists view,
     handle_message (ping_server None)
       (PDict (ping_request [(KStr "User-Agent", PStr "client")])) =
     ([Called (PStr "ping") None view;
       Sent (PDict [(KStr "pong", PBool true); (KStr "code", PInt 200)])],
      Ok tt)) /\
  accept_loop (ping_server (Some "s3cr3t"))
    [Frame (Some (PDict [(KStr "endpoint", PStr "ping"); (KStr "data", PDict []);
                         (KStr "headers", PStr "abc")]));
     Frame (Some (PDict (ping_request [(KStr "Authorization", PStr "s3cr3t")])))] =
    ([], Raised (Exc AttributeError "'str' object has no attribute 'get'")).
Proof.
  split; [reflexivity|]. split; [reflexivity|]. split.
  - eexists. vm_compute. reflexivity.
  - vm_compute. reflexivity.
Qed.

(** ** Routing and invocation *)

Section Invocation.
Context (self : Server) (request : pydict) (name : string) (func : handler)
  (view : IpcServerResponse_obj).
Hypothesis Hrouted : routed self request name func view.

Lemma truthy_name : truthy (PStr name) = true.
Proof.
  simpl. destruct (String.eqb_spec name ""); [|done].
  by destruct (routed_name _ _ _ _ _ Hrouted).
Qed.

Lemma choose_response_routed :
  choose_response self (PStr name) (dict_get "headers" request) (PDict request) =
  try_except
    (await_call (PStr name) func (cog_argument self func) view)
    isinstance_Exception
    (fun error =>
       emit (Dispatch_ipc_error (PStr name) error);;
       mret (error_dict (exc_str error) 500)).
Proof.
  destruct Hrouted as [Ha He Hn Hr Hv].
  unfold choose_response. rewrite Ha. rewrite bind_ret_l.
  rewrite truthy_name. cbn [negb not_in_endpoints]. rewrite Hr.
  rewrite bind_ret_l. unfold invoke. rewrite Hv, bind_lift_ok.
  cbn [endpoints_getitem]. rewrite Hr, !bind_ret_l.
  unfold cog_argument, getattr_qualname.
  destruct (h_qualname func).
  - by rewrite bind_ret_l, try_except_ret, bind_ret_l.
  - by rewrite bind_raise, try_except_raise, bind_ret_l.
Qed.

Lemma handle_message_routed :
  handle_message self (PDict request) =
  response ← try_except
      (await_call (PStr name) func (cog_argument self func) view)
      isinstance_Exception
      (fun error =>
         emit (Dispatch_ipc_error (PStr name) error);;
         mret (error_dict (exc_str error) 500));
  send_response (PStr name) response.
Proof.
  unfold handle_message. cbn [py_get]. rewrite !bind_ret_l.
  rewrite (routed_endpoint _ _ _ _ _ Hrouted).
  by rewrite choose_response_routed.
Qed.

Lemma handle_message_returned (ret : pyval) :
  h_call func (cog_argument self func) view = Ok ret ->
  handle_message self (PDict request) =
  (Called (PStr name) (cog_argument self func) view
     :: trace (send_response (PStr name) ret),
   outcome (send_response (PStr name) ret)).
Proof.
  intros H. rewrite handle_message_routed.
  unfold await_call, lift. rewrite H. simpl.
  unfold mbind, M_bind, bind, trace, outcome.
  by destruct (send_response (PStr name) ret).
Qed.

Lemma handle_message_raised (e : exc) :
  h_call func (cog_argument self func) view = Raised e ->
  isinstance_Exception e = true ->
  handle_message self (PDict request) =
  ([Called (PStr name) (cog_argument self func) view;
    Dispatch_ipc_error (PStr name) e;
    Sent (error_dict (exc_str e) 500)],
   Ok tt).
Proof.
  intros H He. rewrite handle_message_routed.
  unfold await_call, lift. rewrite H.
  cbn -[send_response error_dict]. rewrite He.
  cbn -[send_response error_dict].
  by rewrite send_response_error_dict.
Qed.
End Invocation.

(** ** Encoding and sending *)

Section Sending.
Implicit Types (d : pydict) (endpoint : pyval) (ty : string).

Lemma dict_lookup_set k v d : dict_lookup k (dict_set k v d) = Some v.
Proof.
  induction d as [|[k' v'] d IH]; simpl.
  - by rewrite String.eqb_refl.
  - destruct (key_is k k') eqn:E; simpl; by rewrite E.
Qed.

(** [d[k] = v] keeps every pair stored under another key and adds none. *)
Lemma dict_set_other k v d k' v' :
  key_is k k' = false -> In (k', v') d <-> In (k', v') (dict_set k v d).
Proof.
  intros Hk. induction d as [|[k0 v0] d IH]; simpl.
  - split; [done|]. intros [H | []]. injection H as <- <-.
    simpl in Hk. by rewrite String.eqb_refl in Hk.
  - destruct (key_is k k0) eqn:E; simpl.
    + split; (intros [H | H]; [left | by right]);
        injection H as <- <-; congruence.
    + by rewrite IH.
Qed.

Lemma endswith_app_r suf a b : endswith suf b = true -> endswith suf (a +:+ b) = true.
Proof.
  intros H. induction a as [|c a IH]; simpl; [done|].
  rewrite IH. apply orb_true_r.
Qed.

(** Whatever the class is called, the message json gives for a value of an
    unsupported class passes the test of line 217. *)
Lemma not_serializable_msg_test ty :
  startswith "Object of type" (not_serializable_msg ty)
  && endswith "is not JSON serializable" (not_serializable_msg ty) = true.
Proof.
  apply andb_true_iff. split.
  - apply (prefix_app "Object of type" (" " +:+ ty +:+ " is not JSON serializable")).
  - unfold not_serializable_msg. do 2 apply endswith_app_r.
    apply (endswith_app "is not JSON serializable" " ").
Qed.

Lemma bad_key_msg_test ty : startswith "Object of type" (bad_key_msg ty) = false.
Proof. reflexivity. Qed.

Lemma send_response_dict d :
  forall endpoint,
  send_response endpoint (PDict d) =
  try_except (send_json (PDict (with_default_code d))) isinstance_TypeError
    (fun error =>
       if startswith "Object of type" (exc_str error)
          && endswith "is not JSON serializable" (exc_str error)
       then
         emit (Dispatch_ipc_error endpoint (Exc PlainException error_response));;
         send_json (error_dict error_response 500);;
         raise (Exc JSONEncodeError error_response)
       else mret tt).
Proof.
  intros endpoint. unfold send_response, with_default_code.
  cbn [py_get setitem]. rewrite bind_ret_l.
  destruct (truthy (dict_get "code" d)); cbn [negb]; by rewrite bind_ret_l.
Qed.

(** The payload encodes: it goes out with its code defaulted. *)
Lemma send_response_sent endpoint d :
  dumps_error (PDict (with_default_code d)) = None ->
  send_response endpoint (PDict d) = ([Sent (PDict (with_default_code d))], Ok tt).
Proof. intros H. rewrite send_response_dict. unfold send_json. by rewrite H. Qed.

(** The encoder met a value of an unsupported class: error event, the
    fallback frame, and [JSONEncodeError] leaves the coroutine. *)
Lemma send_response_not_serializable endpoint d ty :
  dumps_error (PDict (with_default_code d)) =
    Some (Exc TypeError (not_serializable_msg ty)) ->
  send_response endpoint (PDict d) =
  ([Dispatch_ipc_error endpoint (Exc PlainException error_response);
    Sent (error_dict error_response 500)],
   Raised (Exc JSONEncodeError error_response)).
Proof.
  intros H. rewrite send_response_dict. unfold send_json at 1. rewrite H.
  rewrite try_except_raise by done.
  cbn [exc_str]. by rewrite not_serializable_msg_test.
Qed.

(** The encoder met a key of an unsupported class: the [TypeError] is
    caught, the test of line 217 fails, and the [except] block ends with
    nothing sent. *)
Lemma send_response_bad_key endpoint d ty :
  dumps_error (PDict (with_default_code d)) = Some (Exc TypeError (bad_key_msg ty)) ->
  send_response endpoint (PDict d) = ([], Ok tt).
Proof.
  intros H. rewrite send_response_dict. unfold send_json. rewrite H.
  by rewrite try_except_raise.
Qed.
(** The encoder met an integer of more than 4300 digits: the [ValueError]
    is not a [TypeError], so it leaves the coroutine with nothing sent. *)
Lemma send_response_int_limit endpoint d :
  dumps_error (PDict (with_default_code d)) = Some (Exc ValueError int_limit_msg) ->
  send_response endpoint (PDict d) = ([], Raised (Exc ValueError int_limit_msg)).
Proof. intros H. rewrite send_response_dict. unfold send_json. by rewrite H. Qed.
End Sending.

(** ** The message loop *)

Lemma accept_loop_continues (self : Server) (request : pyval) (rest : list ws_message) :
  outcome (handle_message self request) = Ok tt ->
  accept_loop self (Frame (Some request) :: rest) =
  (trace (handle_message self request) ++ trace (accept_loop self rest),
   outcome (accept_loop self rest)).
Proof.
  intros H. cbn [accept_loop message_json]. rewrite bind_ret_l.
  by rewrite (bind_trace _ _ tt H).
Qed.

Lemma accept_loop_stops (self : Server) (request : pyval) (rest : list ws_message) e :
  outcome (handle_message self request) = Raised e ->
  accept_loop self (Frame (Some request) :: rest) =
  (trace (handle_message self request), Raised e).
Proof.
  intros H. cbn [accept_loop message_json]. rewrite bind_ret_l.
  by rewrite (bind_raised _ _ e H).
Qed.

(** ** Responses of the primary listener *)

Lemma demo_routed (name : string) (func : handler) :
  name <> "" ->
  endpoints demo_server !! name = Some func ->
  routed demo_server (request_for name) name func (view_for name).
Proof. intros Hn Hr. by split. Qed.

Lemma code_missing_or_falsy_default d :
  code_missing_or_falsy d -> with_default_code d = dict_set "code" (PInt 200) d.
Proof.
  unfold with_default_code, dict_get.
  intros [-> | (v & -> & Hv)]; simpl; [done|]. by rewrite Hv.
Qed.

(** C3, for a mapping json can encode: when the endpoint of a routed request
    returns a mapping in which "code" is absent or falsy, and the mapping
    with code 200 encodes, the one frame sent is that mapping with "code"
    set to 200; every pair stored under another key is in the frame as the
    endpoint returned it, and no other pair is. *)
Theorem default_code_200 (self : Server) (request : pydict) (name : string)
    (func : handler) (view : IpcServerResponse_obj) (returned : pydict) :
  routed self request name func view ->
  h_call func (cog_argument self func) view = Ok (PDict returned) ->
  code_missing_or_falsy returned ->
  dumps_error (PDict (dict_set "code" (PInt 200) returned)) = None ->
  exists sent,
    handle_message self (PDict request) =
      ([Called (PStr name) (cog_argument self func) view; Sent (PDict sent)], Ok tt) /\
    dict_lookup "code" sent = Some (PInt 200) /\
    forall k v, key_is "code" k = false -> In (k, v) returned <-> In (k, v) sent.
Proof.
  intros Hrouted Hcall Hcode Hdumps.
  apply code_missing_or_falsy_default in Hcode.
  exists (dict_set "code" (PInt 200) returned). split; [|split].
  - rewrite (handle_message_returned _ _ _ _ _ Hrouted _ Hcall).
    rewrite send_response_sent; rewrite Hcode; done.
  - apply dict_lookup_set.
  - intros k v Hk. by apply dict_set_other.
Qed.

Lemma default_code_200_witness :
  routed demo_server (request_for "ping") "ping" pong (view_for "ping") /\
  code_missing_or_falsy [(KStr "pong", PBool true)] /\
  exists sent,
    handle_message demo_server (PDict (request_for "ping")) =
      ([Called (PStr "ping") None (view_for "ping"); Sent (PDict sent)], Ok tt) /\
    dict_lookup "code" sent = Some (PInt 200) /\
    forall k v, key_is "code" k = false ->
                In (k, v) [(KStr "pong", PBool true)] <-> In (k, v) sent.
Proof.
  assert (Hr : routed demo_server (request_for "ping") "ping" pong (view_for "ping"))
    by (apply demo_routed; [discriminate | vm_compute; reflexivity]).
  assert (Hc : code_missing_or_falsy [(KStr "pong", PBool true)])
    by (left; reflexivity).
  exact (conj Hr (conj Hc
    (default_code_200 demo_server (request_for "ping") "ping" pong
       (view_for "ping") [(KStr "pong", PBool true)] Hr eq_refl Hc eq_refl))).
Defined.

(** C3 as stated fails for a mapping json cannot encode: "avatar" returns a
    mapping without "code", and the only frame sent is the fallback, with
    code 500 and without the key the endpoint returned. *)
Lemma unencodable_mapping_not_sent :
  h_call avatar None (view_for "avatar") = Ok (PDict [(KStr "avatar", PObj "Asset")]) /\
  code_missing_or_falsy [(KStr "avatar", PObj "Asset")] /\
  handle_message demo_server (PDict (request_for "avatar")) =
    ([Called (PStr "avatar") None (view_for "avatar");
      Dispatch_ipc_error (PStr "avatar") (Exc PlainException error_response);
      Sent (PDict [(KStr "error", PStr error_response); (KStr "code", PInt 500)])],
     Raised (Exc JSONEncodeError error_response)).
Proof.
  split; [reflexivity|]. split; [by left|]. vm_compute. reflexivity.
Qed.

(** C4, for an exception that is an instance of [Exception], the class
    line 198 catches: when the endpoint of a routed request raises it, the
    server dispatches the error event with the endpoint and the exception,
    sends [{"error": str(exception), "code": 500}], and the loop goes on
    with the frames that follow on the connection. *)
Theorem handler_exception_gets_500 (self : Server) (request : pydict)
    (name : string) (func : handler) (view : IpcServerResponse_obj)
    (error : exc) (rest : list ws_message) :
  routed self request name func view ->
  h_call func (cog_argument self func) view = Raised error ->
  isinstance_Exception error = true ->
  handle_message self (PDict request) =
    ([Called (PStr name) (cog_argument self func) view;
      Dispatch_ipc_error (PStr name) error;
      Sent (PDict [(KStr "error", PStr (exc_str error)); (KStr "code", PInt 500)])],
     Ok tt) /\
  accept_loop self (Frame (Some (PDict request)) :: rest) =
    (trace (handle_message self (PDict request)) ++ trace (accept_loop self rest),
     outcome (accept_loop self rest)).
Proof.
  intros Hrouted Hcall Hexc.
  pose proof (handle_message_raised _ _ _ _ _ Hrouted _ Hcall Hexc) as H.
  split; [exact H|].
  apply accept_loop_continues. by rewrite H.
Qed.

Lemma handler_exception_gets_500_witness :
  routed demo_server (request_for "broken") "broken" broken (view_for "broken") /\
  accept_loop demo_server
    [Frame (Some (PDict (request_for "broken")));
     Frame (Some (PDict (request_for "ping")))] =
  ([Called (PStr "broken") None (view_for "broken");
    Dispatch_ipc_error (PStr "broken") (Exc ValueError "no such guild");
    Sent (PDict [(KStr "error", PStr "no such guild"); (KStr "code", PInt 500)]);
    Called (PStr "ping") None (view_for "ping");
    Sent (PDict [(KStr "pong", PBool true); (KStr "code", PInt 200)])],
   Ok tt).
Proof.
  assert (Hr : routed demo_server (request_for "broken") "broken" broken
                 (view_for "broken"))
    by (apply demo_routed; [discriminate | vm_compute; reflexivity]).
  split; [exact Hr|].
  exact (proj2 (handler_exception_gets_500 demo_server (request_for "broken")
                  "broken" broken (view_for "broken")
                  (Exc ValueError "no such guild")
                  [Frame (Some (PDict (request_for "ping")))]
                  Hr eq_refl eq_refl)).
Defined.

(** C4 as stated fails for an exception outside [Exception]: the endpoint
    "quit" raises [SystemExit], which line 198 does not catch.  No frame is
    sent, no error event is dispatched, and the exception ends the loop:
    the request that follows on the connection is not served. *)
Lemma system_exit_gets_no_response :
  h_call quitting None (view_for "quit") =
    Raised (Exc (BaseOnly "SystemExit") "shutting down") /\
  isinstance_Exception (Exc (BaseOnly "SystemExit") "shutting down") = false /\
  accept_loop quitting_server
    [Frame (Some (PDict (request_for "quit")));
     Frame (Some (PDict (request_for "ping")))] =
    ([Called (PStr "quit") None (view_for "quit")],
     Raised (Exc (BaseOnly "SystemExit") "shutting down")).
Proof. repeat split; vm_compute; reflexivity. Qed.

Lemma choose_response_invalid (self : Server) (request : pydict) :
  unauthorized (dict_get "headers" request) (secret_key self) = mret false ->
  no_such_endpoint self request ->
  choose_response self (dict_get "endpoint" request) (dict_get "headers" request)
    (PDict request) =
  ([Dispatch_ipc_error (dict_get "endpoint" request)
      (Exc PlainException invalid_error)],
   Ok (error_dict invalid_error 400)).
Proof.
  intros Ha Hno. unfold choose_response. rewrite Ha, bind_ret_l.
  destruct Hno as [H | H | H | name H Hn].
  - by rewrite (dict_get_absent _ _ H).
  - by rewrite (dict_get_lookup _ _ _ H).
  - by rewrite (dict_get_lookup _ _ _ H).
  - rewrite (dict_get_lookup _ _ _ H). cbn [truthy].
    destruct (String.eqb name ""); cbn [negb]; [done|].
    cbn [not_in_endpoints]. by rewrite Hn.
Qed.

Lemma handle_message_invalid (self : Server) (request : pydict) :
  unauthorized (dict_get "headers" request) (secret_key self) = mret false ->
  no_such_endpoint self request ->
  handle_message self (PDict request) =
    ([Dispatch_ipc_error (dict_get "endpoint" request)
        (Exc PlainException invalid_error);
      Sent (error_dict invalid_error 400)],
     Ok tt).
Proof.
  intros Ha Hno. unfold handle_message. cbn [py_get]. rewrite !bind_ret_l.
  rewrite (choose_response_invalid _ _ Ha Hno).
  cbn -[send_response error_dict]. by rewrite send_response_error_dict.
Qed.

Lemma handle_message_choose (d : pydict) (self : Server) :
  handle_message self (PDict d) =
  choose_response self (dict_get "endpoint" d) (dict_get "headers" d) (PDict d)
    ≫= send_response (dict_get "endpoint" d).
Proof. unfold handle_message. cbn [py_get]. by rewrite !bind_ret_l. Qed.

Lemma handle_message_400 (self : Server) (d : pydict) :
  unauthorized (dict_get "headers" d) (secret_key self) = mret false ->
  (if negb (truthy (dict_get "endpoint" d)) then mret true
   else not_in_endpoints (dict_get "endpoint" d) (endpoints self)) = mret true ->
  handle_message self (PDict d) =
    ([Dispatch_ipc_error (dict_get "endpoint" d) (Exc PlainException invalid_error);
      Sent (error_dict invalid_error 400)],
     Ok tt).
Proof.
  intros Ha Hi. rewrite handle_message_choose. unfold choose_response.
  rewrite Ha, bind_ret_l, Hi, bind_ret_l.
  cbn -[send_response error_dict]. by rewrite send_response_error_dict.
Qed.

Lemma unroutable_invalid (self : Server) (request : pydict) :
  unroutable self request ->
  (if negb (truthy (dict_get "endpoint" request)) then mret true
   else not_in_endpoints (dict_get "endpoint" request) (endpoints self)) = mret true.
Proof.
  intros [H | v H Hv | name H Hn | v H Hs Hh].
  - by rewrite (dict_get_absent _ _ H).
  - by rewrite (dict_get_lookup _ _ _ H), Hv.
  - rewrite (dict_get_lookup _ _ _ H).
    destruct (truthy (PStr name)); cbn [negb]; [|done].
    cbn [not_in_endpoints]. by rewrite Hn.
  - rewrite (dict_get_lookup _ _ _ H).
    destruct (truthy v); cbn [negb]; [|done].
    destruct v as [| | |name| | | | | |];
      try (unfold not_in_endpoints; by rewrite Hh).
    by destruct (Hs name).
Qed.

(** C5, for every endpoint field line 174 decides on: a request that passes
    the guard and whose endpoint field is missing or falsy (null, an empty
    string, zero, ...), or a string that is not a key of the table, or a
    hashable value of another class, is answered with the 400 dictionary
    after one error event, and no endpoint is called.  The table is
    [endpoints self], which [handle_accept] has merged before the loop
    starts. *)
Theorem unknown_endpoint_gets_400 (self : Server) (request : pydict) :
  unauthorized (dict_get "headers" request) (secret_key self) = mret false ->
  unroutable self request ->
  handle_message self (PDict request) =
    ([Dispatch_ipc_error (dict_get "endpoint" request)
        (Exc PlainException invalid_error);
      Sent (PDict [(KStr "error", PStr invalid_error); (KStr "code", PInt 400)])],
     Ok tt) /\
  no_call (trace (handle_message self (PDict request))).
Proof.
  intros Ha Hno.
  rewrite (handle_message_400 _ _ Ha (unroutable_invalid _ _ Hno)).
  split; [done|].
  intros ep cog view [H | [H | []]]; discriminate H.
Qed.

Lemma unknown_endpoint_gets_400_witness :
  unroutable demo_server (request_for "pnig") /\
  handle_message demo_server (PDict (request_for "pnig")) =
    ([Dispatch_ipc_error (PStr "pnig") (Exc PlainException invalid_error);
      Sent (PDict [(KStr "error", PStr invalid_error); (KStr "code", PInt 400)])],
     Ok tt) /\
  unroutable demo_server number_request /\
  handle_message demo_server (PDict number_request) =
    ([Dispatch_ipc_error (PInt 7) (Exc PlainException invalid_error);
      Sent (PDict [(KStr "error", PStr invalid_error); (KStr "code", PInt 400)])],
     Ok tt).
Proof.
  assert (Hno : unroutable demo_server (request_for "pnig"))
    by (apply (unroutable_unknown _ _ "pnig"); vm_compute; reflexivity).
  assert (Hnum : unroutable demo_server number_request)
    by (apply (unroutable_other _ _ (PInt 7)); [reflexivity | discriminate | reflexivity]).
  exact (conj Hno (conj
    (proj1 (unknown_endpoint_gets_400 demo_server (request_for "pnig") eq_refl Hno))
    (conj Hnum
       (proj1 (unknown_endpoint_gets_400 demo_server number_request eq_refl Hnum))))).
Defined.

(** C5 as stated fails for an endpoint field that cannot be hashed: the
    list ["ping"] is not a key of the table, but line 174 raises
    [TypeError] on the membership test.  No 400 is sent, no error event is
    dispatched, and the exception ends the loop: the request that follows
    on the connection is not served. *)
Lemma list_endpoint_gets_no_response :
  unauthorized (dict_get "headers" list_request) (secret_key demo_server) = mret false /\
  dict_lookup "endpoint" list_request = Some (PList [PStr "ping"]) /\
  accept_loop demo_server
    [Frame (Some (PDict list_request)); Frame (Some (PDict (request_for "ping")))] =
    ([], Raised (Exc TypeError "unhashable type: 'list'")).
Proof. repeat split; vm_compute; reflexivity. Qed.






(** ** The discovery listener *)

Lemma multicast_message_refused (self : Server) (request : pydict) :
  unauthorized (dict_get "headers" request) (secret_key self) = mret true ->
  multicast_message self (PDict request) =
    ([Sent (error_dict "Invalid or no token provided." 403)], Ok tt).
Proof.
  intros Ha. unfold multicast_message. cbn [py_get].
  by rewrite bind_ret_l, Ha, bind_ret_l.
Qed.

Lemma multicast_message_accepted (self : Server) (request : pydict) :
  unauthorized (dict_get "headers" request) (secret_key self) = mret false ->
  multicast_message self (PDict request) =
    match int_error (port self) with
    | Some e => ([], Raised e)
    | None => ([Sent (PDict (connection_success self))], Ok tt)
    end.
Proof.
  intros Ha. unfold multicast_message. cbn [py_get].
  rewrite bind_ret_l, Ha, bind_ret_l. unfold send_json.
  cbn [dumps_error key_error]. destruct (int_error (port self)); [done|].
  by rewrite (int_error_status 200).
Qed.

(** C7, for a server whose secret is a string and whose port json can
    write, and for a probe whose headers are absent, falsy or a mapping: if
    the headers map "Authorization" to the secret, the one frame sent is
    [{"message": "Connection success", "port": self.port, "code": 200}];
    in every other case it has code 403, an error string and no "port"
    key. *)
Theorem discovery_answers (self : Server) (s : string) (request : pydict) :
  secret_key self = Some s ->
  (Z.abs (port self) < int_str_bound)%Z ->
  (forall hd,
     dict_lookup "headers" request = Some (PDict hd) ->
     dict_lookup "Authorization" hd = Some (PStr s) ->
     multicast_message self (PDict request) =
       ([Sent (PDict [(KStr "message", PStr "Connection success");
                      (KStr "port", PInt (port self));
                      (KStr "code", PInt 200)])],
        Ok tt)) /\
  (rejected_headers s request ->
   exists response,
     multicast_message self (PDict request) = ([Sent (PDict response)], Ok tt) /\
     dict_lookup "code" response = Some (PInt 403) /\
     (exists msg, dict_lookup "error" response = Some (PStr msg)) /\
     dict_lookup "port" response = None).
Proof.
  intros Hs Hport. split.
  - intros hd Hh Ht.
    rewrite multicast_message_accepted.
    + by rewrite (int_error_fits _ Hport).
    + rewrite Hs, (dict_get_lookup _ _ _ Hh). apply unauthorized_false_iff.
      by exists hd.
  - intros Hrej. apply rejected_headers_unauthorized in Hrej.
    rewrite <- Hs in Hrej. rewrite (multicast_message_refused _ _ Hrej).
    eexists. split; [reflexivity|]. split; [reflexivity|].
    split; [by eexists | reflexivity].
Qed.

Lemma discovery_answers_witness :
  multicast_message demo_server (PDict (probe [(KStr "Authorization", PStr "s3cr3t")])) =
    ([Sent (PDict [(KStr "message", PStr "Connection success");
                   (KStr "port", PInt 1010);
                   (KStr "code", PInt 200)])],
     Ok tt) /\
  rejected_headers "s3cr3t" (probe [(KStr "Authorization", PStr "guess")]) /\
  exists response,
    multicast_message demo_server (PDict (probe [(KStr "Authorization", PStr "guess")])) =
      ([Sent (PDict response)], Ok tt) /\
    dict_lookup "code" response = Some (PInt 403) /\
    (exists msg, dict_lookup "error" response = Some (PStr msg)) /\
    dict_lookup "port" response = None.
Proof.
  assert (Hs : secret_key demo_server = Some "s3cr3t") by reflexivity.
  assert (Hp : (Z.abs (port demo_server) < int_str_bound)%Z)
    by (by apply Z.ltb_lt; vm_compute).
  assert (Hr : rejected_headers "s3cr3t" (probe [(KStr "Authorization", PStr "guess")])).
  { eapply authorization_differs; [reflexivity | reflexivity | discriminate]. }
  split; [|split; [exact Hr|]].
  - exact (proj1 (discovery_answers demo_server "s3cr3t"
                    (probe [(KStr "Authorization", PStr "s3cr3t")]) Hs Hp)
             [(KStr "Authorization", PStr "s3cr3t")] eq_refl eq_refl).
  - exact (proj2 (discovery_answers demo_server "s3cr3t"
                    (probe [(KStr "Authorization", PStr "guess")]) Hs Hp) Hr).
Defined.

(** C7 as stated fails in three ways.  On a server created with the
    default [secret_key], a probe whose headers carry no "Authorization" at
    all is told the port.  A probe whose headers are not a mapping (here a
    string) gets no frame: [headers.get] raises [AttributeError], which
    ends the loop of the connection.  And on a server created with a port
    of 4301 digits a probe that carries the secret gets no frame either:
    the encoder raises [ValueError] on the port. *)
Lemma default_secret_probe_gets_port :
  secret_key (Server_default no_cogs) = None /\
  dict_lookup "Authorization" [(KStr "User-Agent", PStr "client")] = None /\
  multicast_message (Server_default no_cogs)
    (PDict (probe [(KStr "User-Agent", PStr "client")])) =
    ([Sent (PDict [(KStr "message", PStr "Connection success");
                   (KStr "port", PInt 1010);
                   (KStr "code", PInt 200)])],
     Ok tt) /\
  handle_multicast demo_server
    [Frame (Some (PDict [(KStr "headers", PStr "abc")]));
     Frame (Some (PDict (probe [(KStr "Authorization", PStr "s3cr3t")])))] =
    ([], Raised (Exc AttributeError "'str' object has no attribute 'get'")) /\
  port wide_port_server = 10 ^ int_max_str_digits /\
  handle_multicast wide_port_server
    [Frame (Some (PDict (probe [(KStr "Authorization", PStr "s3cr3t")])))] =
    ([], Raised (Exc ValueError int_limit_msg)).
Proof. repeat split; vm_compute; reflexivity. Qed.

Lemma multicast_message_no_dispatch (self : Server) (request : pyval) :
  forallb (fun ev => negb (is_dispatch ev)) (trace (multicast_message self request)) = true.
Proof.
  destruct request as [| | | | |d| | | |]; try reflexivity.
  destruct (unauthorized_cases (dict_get "headers" d) (secret_key self))
    as [[[] Ha] | [e Ha]].
  - by rewrite (multicast_message_refused _ _ Ha).
  - rewrite (multicast_message_accepted _ _ Ha). by destruct (int_error _).
  - unfold multicast_message. cbn [py_get]. by rewrite bind_ret_l, Ha.
Qed.

(** ** Error events *)




(** ** Teardown *)

(** C10, as the code has it: [destroy] cleans up the runner the instance
    holds and then stops the web server it holds, one after the other in a
    single straight line.  When the cleanup raises, that exception leaves
    [destroy] and the stop is not attempted; when it returns, the stop is
    attempted and its outcome is the outcome of [destroy]. *)
Theorem destroy_runner_then_webserver (io : Transport) (self : Server)
    (runner : AppRunner) (webserver : TCPSite) :
  _runner self = Some runner ->
  _webserver self = Some webserver ->
  destroy io self =
  match runner_cleanup io runner with
  | Some e => ([RunnerCleanup runner], Raised e)
  | None =>
      ([RunnerCleanup runner; SiteStop webserver],
       match site_stop io webserver with
       | Some e => Raised e
       | None => Ok tt
       end)
  end.
Proof.
  intros Hr Hw. unfold destroy. rewrite Hr, Hw. cbn [getattr].
  rewrite bind_ret_l. unfold await_io.
  destruct (runner_cleanup io runner); [reflexivity|].
  unfold mbind, M_bind, bind. simpl.
  destruct (site_stop io webserver); reflexivity.
Qed.

Lemma destroy_runner_then_webserver_witness :
  _runner running = Some (AppRunner_of PrimaryApp) /\
  _webserver running = Some (TCPSite_of (AppRunner_of PrimaryApp) "127.0.0.1" 1010) /\
  destroy healthy running =
    ([RunnerCleanup (AppRunner_of PrimaryApp);
      SiteStop (TCPSite_of (AppRunner_of PrimaryApp) "127.0.0.1" 1010)],
     Ok tt).
Proof.
  assert (Hr : _runner running = Some (AppRunner_of PrimaryApp)) by reflexivity.
  assert (Hw : _webserver running =
               Some (TCPSite_of (AppRunner_of PrimaryApp) "127.0.0.1" 1010))
    by reflexivity.
  exact (conj Hr (conj Hw
    (destroy_runner_then_webserver healthy running _ _ Hr Hw))).
Defined.

(** C10 as stated fails: with both listeners set up, a cleanup that raises
    is the only release [destroy] attempts; the stop of the web server is
    not attempted. *)
Lemma failed_cleanup_ends_destroy :
  started.1.2 = [(MulticastApp, 20000); (PrimaryApp, 1010)] /\
  (run_setups healthy started.1.2 started.1.1).2 =
    [RunnerSetup (AppRunner_of MulticastApp);
     SiteStart (TCPSite_of (AppRunner_of MulticastApp) "127.0.0.1" 20000);
     RunnerSetup (AppRunner_of PrimaryApp);
     SiteStart (TCPSite_of (AppRunner_of PrimaryApp) "127.0.0.1" 1010)] /\
  destroy cleanup_raises running =
    ([RunnerCleanup (AppRunner_of PrimaryApp)],
     Raised (Exc (UserException "RuntimeError") "cleanup failed")).
Proof. repeat split. Qed.

(** ** Further properties *)

Lemma trace_bind {A B} (m : M A) (f : A -> M B) :
  trace (m ≫= f) =
  trace m ++ match outcome m with Ok a => trace (f a) | Raised _ => [] end.
Proof.
  destruct m as [t [a|e]]; unfold mbind, M_bind, bind, trace, outcome; simpl.
  - by destruct (f a).
  - by rewrite app_nil_r.
Qed.

(** The discovery listener dispatches no error event, whatever the frames
    of the connection are. *)
Lemma handle_multicast_no_dispatch (self : Server) (messages : list ws_message) :
  forallb (fun ev => negb (is_dispatch ev)) (trace (handle_multicast self messages)) = true.
Proof.
  unfold handle_multicast.
  induction messages as [|[[request|]] rest IH]; [reflexivity | | reflexivity].
  cbn [multicast_loop message_json]. rewrite bind_ret_l, trace_bind.
  rewrite forallb_app, multicast_message_no_dispatch.
  by destruct (outcome (multicast_message self request)).
Qed.

(** A frame that is JSON but not an envelope ends the loop: headers that
    are a non-empty string have no [get], an endpoint that is a non-empty
    list cannot be looked up in the table. *)
Lemma malformed_headers_end_loop (self : Server) (request : pydict) (t : string)
    (rest : list ws_message) :
  dict_lookup "headers" request = Some (PStr t) ->
  t <> "" ->
  accept_loop self (Frame (Some (PDict request)) :: rest) =
    ([], Raised (Exc AttributeError "'str' object has no attribute 'get'")).
Proof.
  intros H Ht.
  assert (Hm : handle_message self (PDict request) =
               ([], Raised (Exc AttributeError "'str' object has no attribute 'get'"))).
  { unfold handle_message. cbn [py_get]. rewrite !bind_ret_l.
    unfold choose_response, unauthorized.
    rewrite (dict_get_lookup _ _ _ H). cbn [truthy].
    by destruct (String.eqb_spec t ""). }
  rewrite (accept_loop_stops _ _ _ _ (f_equal snd Hm)). by rewrite Hm.
Qed.

Lemma unhashable_endpoint_ends_loop (self : Server) (request : pydict)
    (x : pyval) (items : list pyval) (rest : list ws_message) :
  unauthorized (dict_get "headers" request) (secret_key self) = mret false ->
  dict_lookup "endpoint" request = Some (PList (x :: items)) ->
  accept_loop self (Frame (Some (PDict request)) :: rest) =
    ([], Raised (Exc TypeError "unhashable type: 'list'")).
Proof.
  intros Ha H.
  assert (Hm : handle_message self (PDict request) =
               ([], Raised (Exc TypeError "unhashable type: 'list'"))).
  { unfold handle_message. cbn [py_get]. rewrite !bind_ret_l.
    unfold choose_response. rewrite Ha, bind_ret_l.
    by rewrite (dict_get_lookup _ _ _ H). }
  rewrite (accept_loop_stops _ _ _ _ (f_equal snd Hm)). by rewrite Hm.
Qed.

(** The scenario of the specification, with the route registered through
    the module-level decorator: the connection's first merge brings "ping"
    into the instance's table, a request with the secret is answered
    [{"pong": true, "code": 200}], and one with a wrong token gets the 403
    dictionary without a call of the endpoint. *)
Example ping_scenario :
  (handle_accept (route (Some "ping") pong {| cls_ROUTES := ∅ |})
     (Server_init no_cogs "127.0.0.1" 1010 (Some "s3cr3t") true 20000)
     [Frame (Some (PDict (ping_request [(KStr "Authorization", PStr "s3cr3t")])));
      Frame (Some (PDict (ping_request [(KStr "Authorization", PStr "wrong")])))]).2 =
  ([Called (PStr "ping") None (view_for_request
      (ping_request [(KStr "Authorization", PStr "s3cr3t")]));
    Sent (PDict [(KStr "pong", PBool true); (KStr "code", PInt 200)]);
    Dispatch_ipc_error (PStr "ping") (Exc PlainException unauthorized_dispatch);
    Sent (PDict [(KStr "error", PStr unauthorized_error); (KStr "code", PInt 403)])],
   Ok tt).
Proof. vm_compute. reflexivity. Qed.

(** * The rest of the module *)

(** ** Views *)

Section Views.
Implicit Types (self view : IpcServerResponse_obj) (items d : pydict).

(** When the data has no "__dict__" item, a key that is not among the data
    keys keeps the attribute it had. *)
Lemma setattr_items_other items : forall self view k,
  setattr_items self items = Ok view ->
  no_key "__dict__" items ->
  no_key k items ->
  view !! k = self !! k.
Proof.
  induction items as [|[k' v'] items IH]; intros self view k H Hd Hk.
  - by injection H as <-.
  - destruct k' as [key| | | | |]; try discriminate H.
    cbn [setattr_items] in H.
    destruct (String.eqb key "__class__"); [discriminate H|].
    destruct (String.eqb key "__weakref__"); [discriminate H|].
    destruct (String.eqb_spec key "__dict__") as [-> | _].
    { exfalso. apply (Hd v'). by left. }
    rewrite (IH _ _ k H).
    + apply lookup_insert_ne. intros ->. apply (Hk v'). by left.
    + intros v Hin. apply (Hd v). by right.
    + intros v Hin. apply (Hk v). by right.
Qed.

(** With distinct keys and no "__dict__" item, every item of the data is an
    attribute. *)
Lemma setattr_items_item items : forall self view k v,
  setattr_items self items = Ok view ->
  no_key "__dict__" items ->
  NoDup (map fst items) ->
  In (KStr k, v) items ->
  view !! k = Some v.
Proof.
  induction items as [|[k' v'] items IH]; intros self view k v H Hd Hnd Hin; [done|].
  assert (Hd' : no_key "__dict__" items) by (intros w Hw; apply (Hd w); by right).
  apply NoDup_cons in Hnd as [Hfresh Hnd].
  destruct Hin as [Heq | Hin].
  - injection Heq as -> ->.
    cbn [setattr_items] in H.
    destruct (String.eqb k "__class__"); [discriminate H|].
    destruct (String.eqb k "__weakref__"); [discriminate H|].
    destruct (String.eqb_spec k "__dict__") as [-> | _].
    { exfalso. apply (Hd v). by left. }
    rewrite (setattr_items_other _ _ _ k H Hd').
    + apply lookup_insert_eq.
    + intros w Hw. apply Hfresh. apply list_elem_of_In.
      apply (in_map fst) in Hw. exact Hw.
  - destruct k' as [key| | | | |]; try discriminate H.
    cbn [setattr_items] in H.
    destruct (String.eqb key "__class__"); [discriminate H|].
    destruct (String.eqb key "__weakref__"); [discriminate H|].
    destruct (String.eqb_spec key "__dict__") as [-> | _].
    { exfalso. apply (Hd v'). by left. }
    by apply (IH _ _ _ _ H).
Qed.

(** [setattr_items] succeeds exactly when every item can be set. *)
Lemma setattr_items_ok items : forall self,
  Forall settable items -> exists view, setattr_items self items = Ok view.
Proof.
  induction items as [|[k' v'] items IH]; intros self Hk; [by eexists|].
  apply Forall_cons in Hk as [(key & Hkey & Hc & Hw & Hd) Hk].
  simpl in Hkey, Hd. subst k'. cbn [setattr_items].
  apply String.eqb_neq in Hc, Hw. rewrite Hc, Hw.
  destruct (String.eqb_spec key "__dict__") as [E | _].
  - destruct (Hd E) as [d ->]. by apply IH.
  - by apply IH.
Qed.

Lemma setattr_items_settable items : forall self view,
  setattr_items self items = Ok view -> Forall settable items.
Proof.
  induction items as [|[k' v'] items IH]; intros self view H; [constructor|].
  destruct k' as [key| | | | |]; try discriminate H.
  cbn [setattr_items] in H.
  destruct (String.eqb_spec key "__class__") as [|Hc]; [discriminate H|].
  destruct (String.eqb_spec key "__weakref__") as [|Hw]; [discriminate H|].
  destruct (String.eqb_spec key "__dict__") as [Hd | Hd].
  - destruct v' as [| | | | |d| | | |]; try discriminate H.
    constructor; [|by eapply IH].
    exists key. split; [done|]. split; [done|]. split; [done|].
    intros _. by exists d.
  - constructor; [|by eapply IH].
    exists key. split; [done|]. split; [done|]. split; [done|].
    intros E. by destruct Hd.
Qed.
End Views.

(** The constructor succeeds exactly on an envelope that has an "endpoint"
    entry and a "data" entry that is a mapping of items [setattr] accepts:
    string keys other than "__class__" and "__weakref__", and a mapping
    under "__dict__" if that key occurs. *)
Theorem IpcServerResponse_ok_iff (request : pydict) :
  (exists view, IpcServerResponse (PDict request) = Ok view) <->
  (exists endpoint items,
     dict_lookup "endpoint" request = Some endpoint /\
     dict_lookup "data" request = Some (PDict items) /\
     Forall settable items).
Proof.
  unfold IpcServerResponse. split.
  - intros [view H].
    destruct (dict_lookup "endpoint" request) as [endpoint|]; [|discriminate].
    destruct (dict_lookup "data" request) as [[| | | | |items| | | |]|];
      try discriminate.
    exists endpoint, items. repeat split. by eapply setattr_items_settable.
  - intros (endpoint & items & -> & -> & Hk). by apply setattr_items_ok.
Qed.

(** On a view built from data with distinct keys and no "__dict__" item,
    every item of the data is an attribute, and the three attributes the
    constructor sets first are still there unless the data has an item of
    the same name: [length] is the number of entries of the envelope,
    [endpoint] its "endpoint" entry, and [to_json()] gives back the
    envelope, provided no item is named "to_json" either. *)
Theorem IpcServerResponse_attributes (request items : pydict)
    (endpoint : pyval) (view : IpcServerResponse_obj) :
  IpcServerResponse (PDict request) = Ok view ->
  dict_lookup "endpoint" request = Some endpoint ->
  dict_lookup "data" request = Some (PDict items) ->
  NoDup (map fst items) ->
  no_key "__dict__" items ->
  (forall k v, In (KStr k, v) items -> view !! k = Some v) /\
  (no_key "_json" items -> no_key "to_json" items ->
   to_json view = Ok (PDict request)) /\
  (no_key "length" items ->
   view !! "length" = Some (PInt (Z.of_nat (List.length request)))) /\
  (no_key "endpoint" items -> view !! "endpoint" = Some endpoint).
Proof.
  unfold IpcServerResponse. intros H He Hd Hnd Hdict. rewrite He, Hd in H.
  repeat split.
  - intros k v Hin. by apply (setattr_items_item _ _ _ _ _ H).
  - intros Hk Ht. unfold to_json.
    rewrite (setattr_items_other _ _ _ _ H Hdict Ht).
    by rewrite (setattr_items_other _ _ _ _ H Hdict Hk).
  - intros Hk. by rewrite (setattr_items_other _ _ _ _ H Hdict Hk).
  - intros Hk. rewrite (setattr_items_other _ _ _ _ H Hdict Hk).
    apply lookup_insert_eq.
Qed.

(** What the three special names do, evaluated: a "__dict__" item replaces
    the instance dictionary, so that the attributes set before it are gone
    and [to_json()] finds no [_json]; a "to_json" item hides the method;
    "__class__" and "__weakref__" make the constructor raise. *)
Example special_attribute_names :
  IpcServerResponse
    (PDict [(KStr "endpoint", PStr "echo");
            (KStr "data", PDict [(KStr "a", PInt 1);
                                 (KStr "__dict__", PDict [(KStr "z", PInt 9)]);
                                 (KStr "b", PInt 2)])]) =
    Ok (<["b" := PInt 2]> (<["z" := PInt 9]> ∅)) /\
  to_json (<["b" := PInt 2]> (<["z" := PInt 9]> ∅)) =
    Raised (Exc AttributeError "'IpcServerResponse' object has no attribute '_json'") /\
  (exists view,
     IpcServerResponse
       (PDict [(KStr "endpoint", PStr "echo");
               (KStr "data", PDict [(KStr "to_json", PStr "x")])]) = Ok view /\
     to_json view = Raised (Exc TypeError "'str' object is not callable")) /\
  IpcServerResponse
    (PDict [(KStr "endpoint", PStr "echo");
            (KStr "data", PDict [(KStr "__class__", PStr "x")])]) =
    Raised (Exc TypeError "__class__ must be set to a class, not 'str' object") /\
  IpcServerResponse
    (PDict [(KStr "endpoint", PStr "echo");
            (KStr "data", PDict [(KStr "__weakref__", PNone)])]) =
    Raised (Exc AttributeError
              "attribute '__weakref__' of 'IpcServerResponse' objects is not writable") /\
  IpcServerResponse
    (PDict [(KStr "endpoint", PStr "echo");
            (KStr "data", PDict [(KStr "__dict__", PInt 1)])]) =
    Raised (Exc TypeError "__dict__ must be set to a dictionary, not a 'int'").
Proof.
  split; [reflexivity|]. split; [reflexivity|].
  split; [eexists; split; reflexivity|].
  repeat split; reflexivity.
Qed.

(** ** The guard with the default secret *)

(** With [secret_key] left at [None], the guard lets through exactly the
    headers that are a non-empty mapping in which "Authorization" is absent
    or null. *)
Theorem unauthorized_default_iff (headers : pyval) :
  unauthorized headers None = mret false <->
  exists hd, headers = PDict hd /\ hd <> [] /\
             (dict_lookup "Authorization" hd = None \/
              dict_lookup "Authorization" hd = Some PNone).
Proof.
  split.
  - intros [[_ H] | (hd & -> & Hne & H)]%unauthorized_verdict; [discriminate H|].
    exists hd. split; [done|]. split; [done|].
    unfold py_ne_secret, dict_get in H.
    destruct (dict_lookup "Authorization" hd) as [[]|];
      simpl in H; try discriminate; auto.
  - intros (hd & -> & Hne & H). destruct hd as [|p hd]; [done|].
    unfold unauthorized. cbn [truthy negb py_get]. rewrite bind_ret_l.
    unfold dict_get. by destruct H as [-> | ->].
Qed.

(** ** What json.dumps can raise *)

Lemma dumps_error_PList_cons x l :
  dumps_error (PList (x :: l)) =
  match dumps_error x with Some e => Some e | None => dumps_error (PList l) end.
Proof. reflexivity. Qed.

Lemma dumps_error_PDict_cons k x d :
  dumps_error (PDict ((k, x) :: d)) =
  match key_error k with
  | Some e => Some e
  | None =>
      match dumps_error x with
      | Some e => Some e
      | None => dumps_error (PDict d)
      end
  end.
Proof. reflexivity. Qed.

Lemma dumps_error_PTuple_cons x l :
  dumps_error (PTuple (x :: l)) =
  match dumps_error x with Some e => Some e | None => dumps_error (PTuple l) end.
Proof. reflexivity. Qed.

Lemma int_error_cases (z : Z) : dumps_raises (int_error z).
Proof. unfold int_error. destruct (int_str_bound <=? Z.abs z)%Z; constructor. Qed.

Lemma dumps_error_cases (v : pyval) : dumps_raises (dumps_error v).
Proof.
  induction v as [| |z| |l IH|d IH|ty|f|l IH|c] using pyval_nested_ind.
  - constructor.
  - constructor.
  - apply int_error_cases.
  - constructor.
  - induction IH as [|x l Hx _ IHl]; [constructor|].
    rewrite dumps_error_PList_cons. by destruct (dumps_error x).
  - induction IH as [|[k x] d Hx _ IHd]; [constructor|].
    rewrite dumps_error_PDict_cons. simpl in Hx.
    destruct k as [s|z|b| |ty|f]; cbn [key_error].
    + by destruct (dumps_error x).
    + pose proof (int_error_cases z) as Hz.
      destruct (int_error z); [done|]. by destruct (dumps_error x).
    + by destruct (dumps_error x).
    + by destruct (dumps_error x).
    + constructor.
    + by destruct (dumps_error x).
  - constructor.
  - constructor.
  - induction IH as [|x l Hx _ IHl]; [constructor|].
    rewrite dumps_error_PTuple_cons. by destruct (dumps_error x).
  - constructor.
Qed.


(** ** Every shape one request can take *)

Section Shapes.
Implicit Types (self : Server) (d returned : pydict) (request endpoint : pyval).

Lemma with_default_code_truthy d :
  truthy (dict_get "code" (with_default_code d)) = true.
Proof.
  unfold with_default_code.
  destruct (truthy (dict_get "code" d)) eqn:E; [done|].
  unfold dict_get. by rewrite dict_lookup_set.
Qed.

Lemma error_dict_code msg code :
  dict_get "code" (match error_dict msg code with PDict d => d | _ => [] end)
  = PInt code.
Proof. reflexivity. Qed.

(** What sending does with the response it is given. *)
Lemma send_response_cases endpoint response :
  match response with
  | PDict d =>
      send_response endpoint response = ([Sent (PDict (with_default_code d))], Ok tt) \/
      send_response endpoint response =
        ([Dispatch_ipc_error endpoint (Exc PlainException error_response);
          Sent (error_dict error_response 500)],
         Raised (Exc JSONEncodeError error_response)) \/
      send_response endpoint response = ([], Ok tt) \/
      send_response endpoint response = ([], Raised (Exc ValueError int_limit_msg))
  | _ =>
      send_response endpoint response =
        ([], Raised (Exc AttributeError
                       ("'" +:+ type_name response +:+ "' object has no attribute 'get'")))
  end.
Proof.
  destruct response as [| | | | |d| | | |]; try reflexivity.
  pose proof (dumps_error_cases (PDict (with_default_code d))) as H.
  inversion H as [Heq | ty Heq | ty Heq | Heq]; symmetry in Heq.
  - left. by apply send_response_sent.
  - right. left. by eapply send_response_not_serializable.
  - right. right. left. by eapply send_response_bad_key.
  - right. right. right. by apply send_response_int_limit.
Qed.

(** Line 174 finds the endpoint invalid, or finds a non-empty name of the
    table, or raises. *)
Lemma invalid_cases endpoint (eps : gmap string handler) :
  let invalid := (if negb (truthy endpoint) then mret true
                  else not_in_endpoints endpoint eps) in
  invalid = mret true \/
  (exists name func,
     endpoint = PStr name /\ name <> "" /\ eps !! name = Some func /\
     invalid = mret false) \/
  (exists e, invalid = raise e).
Proof.
  destruct (truthy endpoint) eqn:Ht; cbn [negb]; [|by left].
  destruct endpoint as [| | |name| | | | | |];
    try (unfold not_in_endpoints; destruct (hash_error _);
         [right; right; by eexists | by left]).
  cbn [not_in_endpoints]. destruct (eps !! name) as [func|] eqn:Hf; [|by left].
  right. left. exists name, func. repeat split; [|done].
  intros ->. discriminate Ht.
Qed.

Lemma handle_message_escaped self d name func view e :
  routed self d name func view ->
  h_call func (cog_argument self func) view = Raised e ->
  isinstance_Exception e = false ->
  handle_message self (PDict d) =
    ([Called (PStr name) (cog_argument self func) view], Raised e).
Proof.
  intros Hr H He. rewrite (handle_message_routed _ _ _ _ _ Hr).
  unfold await_call, lift. rewrite H.
  cbn -[send_response error_dict]. by rewrite He.
Qed.

Lemma handle_message_shape self request :
  message_shape self request (handle_message self request).
Proof.
  destruct request as [| | | | |d| | | |]; try apply shape_raised.
  destruct (unauthorized_cases (dict_get "headers" d) (secret_key self))
    as [[[] Ha] | [e Ha]].
  - rewrite (handle_message_unauthorized _ _ Ha). by eapply shape_refused.
  - destruct (invalid_cases (dict_get "endpoint" d) (endpoints self))
      as [Hi | [(name & func & E & Hn & Hf & Hi) | [e Hi]]].
    + rewrite (handle_message_400 _ _ Ha Hi). by eapply shape_refused.
    + destruct (IpcServerResponse (PDict d)) as [view|e] eqn:Hv.
      2:{ rewrite handle_message_choose. unfold choose_response.
          rewrite Ha, bind_ret_l, Hi, bind_ret_l.
          unfold invoke. rewrite Hv. apply shape_raised. }
      assert (Hr : routed self d name func view) by by split.
      destruct (h_call func (cog_argument self func) view) as [ret|e] eqn:Hc.
      * rewrite (handle_message_returned _ _ _ _ _ Hr _ Hc).
        pose proof (send_response_cases (PStr name) ret) as Hs.
        destruct ret as [| | | | |returned| | | |];
          try (rewrite Hs; by eapply shape_called).
        destruct Hs as [-> | [-> | [-> | ->]]].
        -- by eapply shape_answered.
        -- by eapply shape_fallback.
        -- by eapply shape_called.
        -- by eapply shape_called.
      * destruct (isinstance_Exception e) eqn:He.
        -- rewrite (handle_message_raised _ _ _ _ _ Hr _ Hc He).
           by eapply shape_failed.
        -- rewrite (handle_message_escaped _ _ _ _ _ _ Hr Hc He).
           by eapply shape_called.
    + rewrite handle_message_choose. unfold choose_response.
      rewrite Ha, bind_ret_l, Hi. apply shape_raised.
  - rewrite handle_message_choose. unfold choose_response. rewrite Ha.
    apply shape_raised.
Qed.
End Shapes.

(** ** What a connection never does *)

Lemma count_app p (a b : list event) : count p (a ++ b) = (count p a + count p b)%nat.
Proof. unfold count. by rewrite List.filter_app, List.length_app. Qed.

Lemma handle_message_counts (self : Server) (request : pyval) :
  (count is_sent (trace (handle_message self request)) <= 1)%nat /\
  (count is_dispatch (trace (handle_message self request)) <= 1)%nat /\
  (count is_called (trace (handle_message self request)) <= 1)%nat.
Proof.
  destruct (handle_message_shape self request); cbn; lia.
Qed.

(** On one connection the server sends at most one frame, dispatches at
    most one error event and awaits at most one endpoint per frame it has
    received. *)
Theorem accept_loop_counts (self : Server) (messages : list ws_message) :
  (count is_sent (trace (accept_loop self messages)) <= List.length messages)%nat /\
  (count is_dispatch (trace (accept_loop self messages)) <= List.length messages)%nat /\
  (count is_called (trace (accept_loop self messages)) <= List.length messages)%nat.
Proof.
  induction messages as [|[[request|]] rest IH]; [cbn; lia | | cbn; lia].
  cbn [accept_loop message_json List.length]. rewrite bind_ret_l, trace_bind.
  rewrite !count_app.
  destruct (handle_message_counts self request) as (H1 & H2 & H3).
  destruct (outcome (handle_message self request)); [|cbn; lia].
  destruct IH as (I1 & I2 & I3). lia.
Qed.

(** An endpoint is awaited for a request exactly when the request passes
    the guard, names a non-empty key of the table and the constructor of
    the view accepts it; it is then the coroutine registered under that
    key, with that view and the cog of its qualified name. *)
Theorem called_iff_routed (self : Server) (request endpoint : pyval)
    (cog : option Cog) (view : IpcServerResponse_obj) :
  In (Called endpoint cog view) (trace (handle_message self request)) <->
  exists d name func,
    request = PDict d /\ endpoint = PStr name /\
    cog = cog_argument self func /\ routed self d name func view.
Proof.
  split.
  - destruct (handle_message_shape self request)
      as [e | err msg code d Hd Hc | d name func v e Hd Hr | d name func v r Hd Hr
          | d name func v returned Hd Hr | d name func v Hd Hr];
      cbn; intros H;
      repeat (destruct H as [H | H]; try discriminate H); try done;
      injection H as <- <- <-; by exists d, name, func.
  - intros (d & name & func & -> & -> & -> & Hr).
    rewrite (handle_message_routed _ _ _ _ _ Hr).
    unfold await_call. rewrite trace_bind.
    apply in_or_app. left.
    destruct (h_call func (cog_argument self func) view) as [ret|e]; cbn.
    + by left.
    + destruct (isinstance_Exception e); cbn; by left.
Qed.

(** Every frame the primary listener sends is a mapping with a truthy
    "code". *)
Theorem sent_frames_have_code (self : Server) (request : pyval) :
  Forall (fun ev => match ev with
                    | Sent x => exists d, x = PDict d /\ truthy (dict_get "code" d) = true
                    | _ => True
                    end)
         (trace (handle_message self request)).
Proof.
  destruct (handle_message_shape self request)
    as [e | err msg code d Hd Hc | d name func v e Hd Hr | d name func v r Hd Hr
        | d name func v returned Hd Hr | d name func v Hd Hr];
    cbn [trace fst]; repeat constructor.
  - eexists. split; [reflexivity|]. cbn. by apply Z.eqb_neq in Hc as ->.
  - by eexists.
  - eexists. split; [reflexivity|]. apply with_default_code_truthy.
  - by eexists.
Qed.

(** ** What an endpoint's answer leads to *)

Lemma full_routed (name : string) (func : handler) :
  name <> "" ->
  endpoints full_server !! name = Some func ->
  routed full_server (request_for name) name func (view_for name).
Proof. intros Hn Hr. by split. Qed.

Lemma routed_called (self : Server) (request : pydict) (name : string)
    (func : handler) (view : IpcServerResponse_obj) :
  routed self request name func view ->
  exists t, trace (handle_message self (PDict request)) =
            Called (PStr name) (cog_argument self func) view :: t.
Proof.
  intros Hr. rewrite (handle_message_routed _ _ _ _ _ Hr).
  unfold await_call. rewrite trace_bind.
  destruct (h_call func (cog_argument self func) view) as [ret|e]; cbn.
  - by eexists.
  - destruct (isinstance_Exception e); cbn; by eexists.
Qed.






(** An endpoint that returns a value without a [get] method (None, a
    bool, a number, a string, a list) gets no frame and no error event:
    the [AttributeError] of line 212 is not a [TypeError], it leaves the
    coroutine and no later frame of the connection is processed. *)
Theorem non_mapping_answer_ends_loop (self : Server) (request : pydict)
    (name : string) (func : handler) (view : IpcServerResponse_obj)
    (returned : pyval) (rest : list ws_message) :
  routed self request name func view ->
  h_call func (cog_argument self func) view = Ok returned ->
  has_no_get returned ->
  accept_loop self (Frame (Some (PDict request)) :: rest) =
    ([Called (PStr name) (cog_argument self func) view],
     Raised (Exc AttributeError
               ("'" +:+ type_name returned +:+ "' object has no attribute 'get'"))).
Proof.
  intros Hr Hc Hn.
  assert (H : handle_message self (PDict request) =
    ([Called (PStr name) (cog_argument self func) view],
     Raised (Exc AttributeError
               ("'" +:+ type_name returned +:+ "' object has no attribute 'get'")))).
  { rewrite (handle_message_returned _ _ _ _ _ Hr _ Hc).
    by destruct returned. }
  rewrite (accept_loop_stops _ _ _ _ (f_equal snd H)). by rewrite H.
Qed.

Lemma non_mapping_answer_ends_loop_witness :
  routed full_server (request_for "silent") "silent" silent (view_for "silent") /\
  accept_loop full_server
    [Frame (Some (PDict (request_for "silent")));
     Frame (Some (PDict (request_for "teapot")))] =
  ([Called (PStr "silent") None (view_for "silent")],
   Raised (Exc AttributeError "'NoneType' object has no attribute 'get'")).
Proof.
  assert (Hr : routed full_server (request_for "silent") "silent" silent
                 (view_for "silent"))
    by (apply full_routed; [discriminate | vm_compute; reflexivity]).
  exact (conj Hr
    (non_mapping_answer_ends_loop full_server (request_for "silent") "silent"
       silent (view_for "silent") PNone
       [Frame (Some (PDict (request_for "teapot")))] Hr eq_refl I)).
Defined.

(** An exception outside [Exception] raised in an endpoint (a cancellation,
    a system exit) is not caught by line 198: no error event, no frame,
    and it ends the loop. *)
Theorem base_exception_ends_loop (self : Server) (request : pydict)
    (name : string) (func : handler) (view : IpcServerResponse_obj)
    (error : exc) (rest : list ws_message) :
  routed self request name func view ->
  h_call func (cog_argument self func) view = Raised error ->
  isinstance_Exception error = false ->
  accept_loop self (Frame (Some (PDict request)) :: rest) =
    ([Called (PStr name) (cog_argument self func) view], Raised error).
Proof.
  intros Hr Hc He.
  pose proof (handle_message_escaped _ _ _ _ _ _ Hr Hc He) as H.
  rewrite (accept_loop_stops _ _ _ _ (f_equal snd H)). by rewrite H.
Qed.

Lemma base_exception_ends_loop_witness :
  routed full_server (request_for "cancelled") "cancelled" cancelled
    (view_for "cancelled") /\
  accept_loop full_server
    [Frame (Some (PDict (request_for "cancelled")));
     Frame (Some (PDict (request_for "teapot")))] =
  ([Called (PStr "cancelled") None (view_for "cancelled")],
   Raised (Exc (BaseOnly "CancelledError") "")).
Proof.
  assert (Hr : routed full_server (request_for "cancelled") "cancelled" cancelled
                 (view_for "cancelled"))
    by (apply full_routed; [discriminate | vm_compute; reflexivity]).
  exact (conj Hr
    (base_exception_ends_loop full_server (request_for "cancelled") "cancelled"
       cancelled (view_for "cancelled") (Exc (BaseOnly "CancelledError") "")
       [Frame (Some (PDict (request_for "teapot")))] Hr eq_refl eq_refl)).
Defined.

(** A request that passes the guard and names a registered endpoint but has
    no "data" entry raises [KeyError] in the view's constructor, outside
    every [try]: the endpoint is not called, nothing is sent, no error
    event is raised, and the loop ends. *)
Theorem missing_data_ends_loop (self : Server) (request : pydict)
    (name : string) (func : handler) (rest : list ws_message) :
  unauthorized (dict_get "headers" request) (secret_key self) = mret false ->
  dict_lookup "endpoint" request = Some (PStr name) ->
  name <> "" ->
  endpoints self !! name = Some func ->
  dict_lookup "data" request = None ->
  accept_loop self (Frame (Some (PDict request)) :: rest) =
    ([], Raised (Exc KeyError "'data'")).
Proof.
  intros Ha He Hn Hf Hd.
  assert (H : handle_message self (PDict request) =
              ([], Raised (Exc KeyError "'data'"))).
  { rewrite handle_message_choose, (dict_get_lookup _ _ _ He).
    unfold choose_response. rewrite Ha, bind_ret_l. cbn [truthy].
    apply String.eqb_neq in Hn. rewrite Hn.
    cbn [negb not_in_endpoints]. rewrite Hf, bind_ret_l.
    unfold invoke, IpcServerResponse. by rewrite He, Hd. }
  rewrite (accept_loop_stops _ _ _ _ (f_equal snd H)). by rewrite H.
Qed.

Lemma missing_data_ends_loop_witness :
  dict_lookup "data" bare_request = None /\
  accept_loop demo_server
    [Frame (Some (PDict bare_request)); Frame (Some (PDict (request_for "ping")))] =
  ([], Raised (Exc KeyError "'data'")).
Proof.
  split; [reflexivity|].
  apply (missing_data_ends_loop demo_server bare_request "ping" pong).
  - reflexivity.
  - reflexivity.
  - discriminate.
  - vm_compute; reflexivity.
  - reflexivity.
Defined.

Lemma IpcServerResponse_attributes_witness :
  IpcServerResponse (PDict echo_request) = Ok echo_view /\
  echo_view !! "text" = Some (PStr "hi") /\
  to_json echo_view = Ok (PDict echo_request) /\
  echo_view !! "endpoint" = Some (PStr "echo").
Proof.
  assert (Hv : IpcServerResponse (PDict echo_request) = Ok echo_view) by reflexivity.
  assert (Hnd : NoDup (map fst [(KStr "text", PStr "hi"); (KStr "guild", PInt 7)])).
  { repeat constructor.
    - intros [H | H]%elem_of_cons; [discriminate H | by apply elem_of_nil in H].
    - by intros H%elem_of_nil. }
  assert (Hno : forall k, k <> "text" -> k <> "guild" ->
                 no_key k [(KStr "text", PStr "hi"); (KStr "guild", PInt 7)]).
  { intros k H1 H2 v [H | [H | []]]; injection H as H _; by subst. }
  destruct (IpcServerResponse_attributes echo_request
              [(KStr "text", PStr "hi"); (KStr "guild", PInt 7)]
              (PStr "echo") echo_view Hv eq_refl eq_refl Hnd
              (Hno "__dict__" ltac:(discriminate) ltac:(discriminate)))
    as (Hitems & Hjson & _ & Hep).
  split; [exact Hv|]. split; [|split].
  - apply Hitems. by left.
  - apply Hjson; apply Hno; discriminate.
  - apply Hep. apply Hno; discriminate.
Defined.

(** ** The cog argument *)

Lemma split_dot_head_app (a b : string) :
  no_dot a = true -> split_dot_head (a +:+ "." +:+ b) = a.
Proof.
  induction a as [|c a IH]; [done|].
  cbn [no_dot]. intros [Hc Ha]%andb_true_iff.
  apply negb_true_iff in Hc.
  change (split_dot_head (String c (a +:+ "." +:+ b)) = String c a).
  cbn [split_dot_head]. rewrite Hc. by rewrite IH.
Qed.

(** An endpoint whose qualified name is [C.m...] is awaited with the cog
    the bot has under [C] as leading argument, and with the view alone when
    the bot has no such cog. *)
Theorem method_endpoint_gets_its_cog (self : Server) (request : pydict)
    (name : string) (func : handler) (view : IpcServerResponse_obj)
    (cogname rest : string) :
  routed self request name func view ->
  h_qualname func = Some (cogname +:+ "." +:+ rest) ->
  no_dot cogname = true ->
  exists t,
    trace (handle_message self (PDict request)) =
    Called (PStr name) (cogs (bot self) !! cogname) view :: t.
Proof.
  intros Hr Hq Hd. destruct (routed_called _ _ _ _ _ Hr) as [t Ht].
  exists t. rewrite Ht. unfold cog_argument. rewrite Hq.
  by rewrite split_dot_head_app.
Qed.

Lemma method_endpoint_gets_its_cog_witness :
  routed full_server (request_for "members") "members" members (view_for "members") /\
  exists t,
    trace (handle_message full_server (PDict (request_for "members"))) =
    Called (PStr "members") (Some (CogInstance "Stats")) (view_for "members") :: t.
Proof.
  assert (Hr : routed full_server (request_for "members") "members" members
                 (view_for "members"))
    by (apply full_routed; [discriminate | vm_compute; reflexivity]).
  exact (conj Hr
    (method_endpoint_gets_its_cog full_server (request_for "members")
       "members" members (view_for "members") "Stats" "members"
       Hr eq_refl eq_refl)).
Defined.

(** ** Registration and the first connection *)

Lemma handle_accept_endpoints (cls : ServerClass) (self : Server)
    (messages : list ws_message) :
  (handle_accept cls self messages).1.2 = (update_endpoints cls self).2 /\
  (handle_accept cls self messages).1.1 = cls /\
  (handle_accept cls self messages).2 =
    accept_loop (update_endpoints cls self).2 messages.
Proof. done. Qed.



(** A coroutine registered through the module-level decorator after an
    instance has served its first connection never reaches that instance:
    on a later connection a request that names it is answered with the 400
    dictionary. *)
Theorem late_module_route_is_not_served (cls : ServerClass) (self : Server)
    (messages : list ws_message) (name : string) (func : handler)
    (request : pydict) :
  endpoints (handle_accept cls self messages).1.2 !! name = None ->
  unauthorized (dict_get "headers" request) (secret_key self) = mret false ->
  dict_lookup "endpoint" request = Some (PStr name) ->
  (handle_accept (route (Some name) func (handle_accept cls self messages).1.1)
     (handle_accept cls self messages).1.2
     [Frame (Some (PDict request))]).2 =
  ([Dispatch_ipc_error (PStr name) (Exc PlainException invalid_error);
    Sent (PDict [(KStr "error", PStr invalid_error); (KStr "code", PInt 400)])],
   Ok tt).
Proof.
  intros Hn Ha He.
  destruct (handle_accept_endpoints cls self messages) as (E1 & E2 & _).
  rewrite E1 in Hn |- *. rewrite E2.
  destruct (handle_accept_endpoints (route (Some name) func cls)
              (update_endpoints cls self).2 [Frame (Some (PDict request))])
    as (_ & _ & ->).
  set (again := (update_endpoints (route (Some name) func cls)
                   (update_endpoints cls self).2).2).
  assert (Hagain : endpoints again = endpoints (update_endpoints cls self).2)
    by apply update_endpoints_again.
  assert (Hm : handle_message again (PDict request) =
    ([Dispatch_ipc_error (dict_get "endpoint" request)
        (Exc PlainException invalid_error);
      Sent (error_dict invalid_error 400)], Ok tt)).
  { apply handle_message_invalid; [exact Ha|].
    apply (endpoint_unknown _ _ name He). by rewrite Hagain. }
  rewrite (accept_loop_continues _ _ _ (f_equal snd Hm)), Hm.
  by rewrite (dict_get_lookup _ _ _ He).
Qed.

Lemma late_module_route_is_not_served_witness :
  endpoints (handle_accept {| cls_ROUTES := ∅ |} (ping_server (Some "s3cr3t")) []).1.2
    !! "avatar" = None /\
  (handle_accept
     (route (Some "avatar") avatar
        (handle_accept {| cls_ROUTES := ∅ |} (ping_server (Some "s3cr3t")) []).1.1)
     (handle_accept {| cls_ROUTES := ∅ |} (ping_server (Some "s3cr3t")) []).1.2
     [Frame (Some (PDict (request_for "avatar")))]).2 =
  ([Dispatch_ipc_error (PStr "avatar") (Exc PlainException invalid_error);
    Sent (PDict [(KStr "error", PStr invalid_error); (KStr "code", PInt 400)])],
   Ok tt).
Proof.
  assert (H : endpoints (handle_accept {| cls_ROUTES := ∅ |}
                           (ping_server (Some "s3cr3t")) []).1.2 !! "avatar" = None)
    by (vm_compute; reflexivity).
  exact (conj H
    (late_module_route_is_not_served {| cls_ROUTES := ∅ |}
       (ping_server (Some "s3cr3t")) [] "avatar" avatar (request_for "avatar")
       H eq_refl eq_refl)).
Defined.

(** ** Setting up and tearing down *)

(** Whatever state the instance is in, [destroy] attempts at most one
    runner cleanup and at most one site stop, and nothing else: of the two
    runners and two sites [start] has set up with discovery enabled, one
    runner and one site are out of its reach. *)
Theorem destroy_releases_one_of_each (io : Transport) (self : Server) :
  (count is_cleanup (trace (destroy io self)) <= 1)%nat /\
  (count is_stop (trace (destroy io self)) <= 1)%nat /\
  (List.length (trace (destroy io self)) <= 2)%nat.
Proof.
  unfold destroy, getattr, await_io, count, trace, mbind, M_bind, bind.
  destruct (_runner self) as [r|]; simpl; [|lia].
  destruct (runner_cleanup io r); simpl; [lia|].
  destruct (_webserver self) as [w|]; simpl; [|lia].
  destruct (site_stop io w); simpl; lia.
Qed.

(** After a [setup] whose runner came up, [destroy] releases the runner and
    the site of that [setup] call, whatever was set up before it: first the
    runner, then, if the cleanup returned, the site. *)
Theorem setup_then_destroy (io : Transport) (self : Server)
    (application : Application) (port : Z) :
  runner_setup io (AppRunner_of application) = None ->
  destroy io (setup io application port self).1 =
  match runner_cleanup io (AppRunner_of application) with
  | Some e => ([RunnerCleanup (AppRunner_of application)], Raised e)
  | None =>
      ([RunnerCleanup (AppRunner_of application);
        SiteStop (TCPSite_of (AppRunner_of application) (host self) port)],
       match site_stop io (TCPSite_of (AppRunner_of application) (host self) port) with
       | Some e => Raised e
       | None => Ok tt
       end)
  end.
Proof.
  intros Hs. unfold setup. rewrite Hs. cbn [fst].
  unfold destroy. cbn [_runner _webserver with_webserver with_runner getattr host].
  rewrite bind_ret_l. unfold await_io.
  destruct (runner_cleanup io (AppRunner_of application)); [reflexivity|].
  unfold mbind, M_bind, bind. simpl.
  by destruct (site_stop io _).
Qed.

Lemma setup_then_destroy_witness :
  destroy healthy
    (setup healthy PrimaryApp 1010
       (setup healthy MulticastApp 20000 (Server_default no_cogs)).1).1 =
  ([RunnerCleanup (AppRunner_of PrimaryApp);
    SiteStop (TCPSite_of (AppRunner_of PrimaryApp) "127.0.0.1" 1010)],
   Ok tt).
Proof.
  exact (setup_then_destroy healthy
           (setup healthy MulticastApp 20000 (Server_default no_cogs)).1
           PrimaryApp 1010 eq_refl).
Defined.

(** [destroy] on an instance whose [setup] never ran, whether [start] was
    called or not, raises [AttributeError] for [_runner] and attempts
    nothing. *)
Theorem destroy_before_setup (io : Transport) (bot : Bot) (host : string)
    (port : Z) (secret_key : option string) (do_multicast : bool)
    (multicast_port : Z) :
  let self := Server_init bot host port secret_key do_multicast multicast_port in
  destroy io self =
    ([], Raised (Exc AttributeError "'Server' object has no attribute '_runner'")) /\
  destroy io (start self).1.1 =
    ([], Raised (Exc AttributeError "'Server' object has no attribute '_runner'")).
Proof. done. Qed.

(** When the runner fails to come up, [setup] ends with that exception
    after binding [_runner]: the site is neither created nor started and
    [_webserver] is left as it was.  On an instance that had none, a
    [destroy] that follows cleans up the runner and then raises
    [AttributeError] for [_webserver]. *)
Theorem failed_runner_setup (io : Transport) (self : Server)
    (application : Application) (port : Z) (e : exc) :
  runner_setup io (AppRunner_of application) = Some e ->
  (setup io application port self).2 =
    ([RunnerSetup (AppRunner_of application)], Raised e) /\
  _runner (setup io application port self).1 = Some (AppRunner_of application) /\
  _webserver (setup io application port self).1 = _webserver self /\
  (_webserver self = None ->
   runner_cleanup io (AppRunner_of application) = None ->
   destroy io (setup io application port self).1 =
     ([RunnerCleanup (AppRunner_of application)],
      Raised (Exc AttributeError "'Server' object has no attribute '_webserver'"))).
Proof.
  intros Hs. unfold setup. rewrite Hs. cbn [fst snd]. repeat split.
  intros Hw Hc. unfold destroy.
  cbn [_runner _webserver with_runner getattr]. rewrite bind_ret_l.
  unfold await_io. rewrite Hc, Hw. reflexivity.
Qed.

Lemma failed_runner_setup_witness :
  (setup runner_setup_raises PrimaryApp 1010 (Server_default no_cogs)).2 =
    ([RunnerSetup (AppRunner_of PrimaryApp)],
     Raised (Exc (UserException "OSError") "address in use")) /\
  destroy runner_setup_raises
    (setup runner_setup_raises PrimaryApp 1010 (Server_default no_cogs)).1 =
    ([RunnerCleanup (AppRunner_of PrimaryApp)],
     Raised (Exc AttributeError "'Server' object has no attribute '_webserver'")).
Proof.
  destruct (failed_runner_setup runner_setup_raises (Server_default no_cogs)
              PrimaryApp 1010 (Exc (UserException "OSError") "address in use")
              eq_refl) as (H1 & _ & _ & H4).
  exact (conj H1 (H4 eq_refl eq_refl)).
Defined.

(** ** Probes *)

Lemma multicast_message_verdict (self : Server) (request : pydict) (unauth : bool) :
  (Z.abs (port self) < int_str_bound)%Z ->
  unauthorized (dict_get "headers" request) (secret_key self) = mret unauth ->
  exists response,
    multicast_message self (PDict request) = ([Sent response], Ok tt).
Proof.
  intros Hp Ha. destruct unauth.
  - rewrite (multicast_message_refused _ _ Ha). by eexists.
  - rewrite (multicast_message_accepted _ _ Ha), (int_error_fits _ Hp). by eexists.
Qed.

Lemma headers_field_ok_verdict (request : pydict) (secret : option string) :
  headers_field_ok request ->
  exists b, unauthorized (dict_get "headers" request) secret = mret b.
Proof.
  intros [H | [H | [hd H]]].
  - rewrite (dict_get_absent _ _ H). by eexists.
  - rewrite (dict_get_lookup _ _ _ H). by eexists.
  - rewrite (dict_get_lookup _ _ _ H). unfold unauthorized.
    destruct (truthy (PDict hd)); cbn [negb py_get]; [|by eexists].
    rewrite bind_ret_l. by eexists.
Qed.

Lemma multicast_loop_continues (self : Server) (request : pyval)
    (rest : list ws_message) :
  outcome (multicast_message self request) = Ok tt ->
  multicast_loop self (Frame (Some request) :: rest) =
  (trace (multicast_message self request) ++ trace (multicast_loop self rest),
   outcome (multicast_loop self rest)).
Proof.
  intros H. cbn [multicast_loop message_json]. rewrite bind_ret_l.
  by rewrite (bind_trace _ _ tt H).
Qed.

(** On the discovery listener of a server whose port json can write (an
    integer of at most 4300 digits, as every port number is), every probe
    whose headers are absent, null or a mapping is answered with exactly
    one frame, and nothing else happens on the connection until the client
    closes it. *)
Theorem discovery_answers_every_probe (self : Server) (probes : list pydict) :
  (Z.abs (port self) < int_str_bound)%Z ->
  Forall headers_field_ok probes ->
  outcome (handle_multicast self (frames probes)) = Ok tt /\
  List.length (trace (handle_multicast self (frames probes))) = List.length probes /\
  count is_sent (trace (handle_multicast self (frames probes))) = List.length probes.
Proof.
  intros Hp. unfold handle_multicast.
  induction 1 as [|request probes Hok _ IH]; [done|].
  destruct IH as (IH1 & IH2 & IH3).
  destruct (headers_field_ok_verdict request (secret_key self) Hok) as [b Hb].
  destruct (multicast_message_verdict self request b Hp Hb) as [response Hm].
  change (frames (request :: probes))
    with (Frame (Some (PDict request)) :: frames probes).
  rewrite (multicast_loop_continues _ _ _ (f_equal snd Hm)), Hm.
  split; [exact IH1|]. split.
  - change (List.length ([Sent response] ++ trace (multicast_loop self (frames probes)))
            = S (List.length probes)).
    cbn [app List.length]. by rewrite IH2.
  - change (count is_sent ([Sent response] ++ trace (multicast_loop self (frames probes)))
            = S (List.length probes)).
    rewrite count_app, IH3. reflexivity.
Qed.

(** The bound on the port is needed: a server created with a port of 4301
    digits answers a probe that carries the secret with no frame at all,
    because the encoder raises on the port. *)
Example oversized_port_gets_no_answer :
  handle_multicast wide_port_server
    [Frame (Some (PDict (probe [(KStr "Authorization", PStr "s3cr3t")])))] =
  ([], Raised (Exc ValueError int_limit_msg)).
Proof. vm_compute. reflexivity. Qed.

Lemma discovery_answers_every_probe_witness :
  (Z.abs (port demo_server) < int_str_bound)%Z /\
  Forall headers_field_ok [probe [(KStr "Authorization", PStr "s3cr3t")]; []] /\
  List.length (trace (handle_multicast demo_server
     (frames [probe [(KStr "Authorization", PStr "s3cr3t")]; []]))) = 2%nat.
Proof.
  assert (Hp : (Z.abs (port demo_server) < int_str_bound)%Z)
    by (by apply Z.ltb_lt; vm_compute).
  assert (H : Forall headers_field_ok [probe [(KStr "Authorization", PStr "s3cr3t")]; []]).
  { constructor; [right; right; by eexists|].
    constructor; [by left|]. constructor. }
  exact (conj Hp (conj H
    (proj1 (proj2 (discovery_answers_every_probe demo_server _ Hp H))))).
Defined.
